(** * The data model of the video-generation pipeline (app/models.py)

    The program is a set of SQLModel classes: seven tables and the
    schemas (Create/Update) that validate what is written to them.
    Every class is embedded as a record in a module of the class's name,
    every [Field(...)] declaration as a field descriptor, and validation
    as the list of the fields whose constraints a payload violates. *)

From Stdlib Require Import ZArith QArith Ascii String List Bool Lia.
Import ListNotations.

Local Open Scope string_scope.
Local Open Scope list_scope.
Local Open Scope Z_scope.

(** ** Enumerations *)

Inductive JobStatus := PENDING | PROCESSING | COMPLETED | FAILED | CANCELLED.

Inductive TTSProvider := ELEVENLABS | OPENAI | GOOGLE | AMAZON.

Inductive VideoFormat := MP4 | MOV | AVI.

Definition JobStatus_value (s : JobStatus) : string :=
  match s with
  | PENDING => "pending"
  | PROCESSING => "processing"
  | COMPLETED => "completed"
  | FAILED => "failed"
  | CANCELLED => "cancelled"
  end.

Definition TTSProvider_value (p : TTSProvider) : string :=
  match p with
  | ELEVENLABS => "elevenlabs"
  | OPENAI => "openai"
  | GOOGLE => "google"
  | AMAZON => "amazon"
  end.

Definition VideoFormat_value (f : VideoFormat) : string :=
  match f with
  | MP4 => "mp4"
  | MOV => "mov"
  | AVI => "avi"
  end.

(** ** Values *)

(** [datetime]: a point in time, counted in microseconds. *)
Definition datetime := Z.

(** [decimal.Decimal]: a finite value is [coefficient * 10 ^ exponent]
    (the sign is the coefficient's); the two infinities and NaN are
    values of the type as well. [Decimal("1.0")] is [DFinite 10 (-1)]. *)
Inductive Decimal :=
| DFinite (coefficient exponent : Z)
| DInfinity (negative : bool)
| DNaN.

Definition Decimal_value (d : Decimal) : option Q :=
  match d with
  | DFinite c e => Some (inject_Z c * Qpower (10 # 1) e)%Q
  | _ => None
  end.

(** A value stored in a JSON column ([Dict[str, Any]]). *)
#[local] Unset Elimination Schemes.
Inductive Json :=
| JNull
| JBool (b : bool)
| JInt (n : Z)
| JStr (s : string)
| JList (items : list Json)
| JDict (entries : list (string * Json)).
#[local] Set Elimination Schemes.

(** ** Field descriptors

    [Field(max_length=n)] on a string, [Field(ge=a, le=b)] on an integer,
    [Field(decimal_places=p, ge=a, le=b)] on a Decimal. A bound written as
    a float literal in the source ([ge=0.1]) is the decimal it prints as
    ([1 # 10]): that is how the validator of a Decimal field reads it. *)

Record StrField := { max_length : option nat }.

Record IntField := { int_ge : option Z; int_le : option Z }.

Record DecimalField :=
  { decimal_places : option Z; ge : option Q; le : option Q }.

Definition Str (n : nat) : StrField := {| max_length := Some n |}.

Definition Int (a b : option Z) : IntField := {| int_ge := a; int_le := b |}.

Definition Dec (p : Z) (a b : option Q) : DecimalField :=
  {| decimal_places := Some p; ge := a; le := b |}.

(** [max_length] bounds the number of characters of a [str]. A string
    is held as its UTF-8 bytes: a character is a byte that is not a
    continuation byte (10xxxxxx), with the continuation bytes after it. *)
Definition continuation (a : ascii) : bool :=
  match a with
  | Ascii _ _ _ _ _ _ b6 b7 => b7 && negb b6
  end.

Fixpoint characters (s : string) : nat :=
  match s with
  | EmptyString => 0%nat
  | String a rest => ((if continuation a then 0 else 1) + characters rest)%nat
  end.

Definition str_ok (f : StrField) (s : string) : bool :=
  match max_length f with
  | Some n => (characters s <=? n)%nat
  | None => true
  end.

Definition int_ok (f : IntField) (n : Z) : bool :=
  match int_ge f with Some a => a <=? n | None => true end
  && match int_le f with Some b => n <=? b | None => true end.

(** The number of decimal places of a finite value is counted after its
    trailing zeros are dropped: the value has at most [p] places when
    [value * 10 ^ p] is an integer. *)
Definition places_ok (p : Z) (c e : Z) : bool :=
  if 0 <=? e + p then true else c mod 10 ^ (- (e + p)) =? 0.

(** A Decimal field accepts finite values only; then its declared
    places and bounds are checked. *)
Definition decimal_ok (f : DecimalField) (d : Decimal) : bool :=
  match d with
  | DFinite c e =>
      let v := (inject_Z c * Qpower (10 # 1) e)%Q in
      match decimal_places f with Some p => places_ok p c e | None => true end
      && match ge f with Some a => Qle_bool a v | None => true end
      && match le f with Some b => Qle_bool v b | None => true end
  | _ => false
  end.

(** An [Optional[...]] field: [None] is always accepted. *)
Definition optional {A : Type} (ok : A -> bool) (o : option A) : bool :=
  match o with
  | None => true
  | Some v => ok v
  end.

(** ** Errors and results *)

(** The error kinds of the record store. A [ValidationError] lists, in
    declaration order, the fields whose constraints are violated. *)
Inductive Error :=
| ValidationError (fields : list string)
| ConflictError (column : string)
| NotFoundError (reference : string)
| StateError.

Inductive Result (A : Type) :=
| Ok (a : A)
| Err (e : Error).

Arguments Ok {A} a.
Arguments Err {A} e.

Definition field_error (name : string) (ok : bool) : list string :=
  if ok then [] else [name].

(** Validation of a schema instance: it is accepted when no field is in
    error. *)
Definition model_validate {A : Type} (errors : A -> list string) (x : A)
  : Result A :=
  match errors x with
  | [] => Ok x
  | fs => Err (ValidationError fs)
  end.

(** ** Persistent models (the tables)

    A table class is a record of its columns; [Relationship] attributes
    are views over the foreign keys and hold no data of their own. The
    [errors] of a row are the columns that violate their [Field]
    declaration. *)

Module User.

Record t :=
  { id : option Z;
    username : string;
    email : string;
    is_active : bool;
    created_at : datetime;
    updated_at : datetime;
    reddit_client_id : option string;
    reddit_client_secret : option string;
    tts_api_key : option string }.

Definition errors (u : t) : list string :=
  field_error "username" (str_ok (Str 100) (username u))
  ++ field_error "email" (str_ok (Str 255) (email u))
  ++ field_error "reddit_client_id"
       (optional (str_ok (Str 500)) (reddit_client_id u))
  ++ field_error "reddit_client_secret"
       (optional (str_ok (Str 500)) (reddit_client_secret u))
  ++ field_error "tts_api_key" (optional (str_ok (Str 500)) (tts_api_key u)).

(** Columns declared [unique=True]. *)
Definition unique_columns : list (string * (t -> string)) :=
  [("username", username); ("email", email)].

End User.

Module RedditPost.

Record t :=
  { id : option Z;
    reddit_id : string;
    subreddit : string;
    title : string;
    content : string;
    author : string;
    score : Z;
    num_comments : Z;
    created_utc : datetime;
    url : string;
    permalink : string;
    word_count : Z;
    estimated_duration : Decimal;
    user_id : Z;
    created_at : datetime }.

Definition errors (r : t) : list string :=
  field_error "reddit_id" (str_ok (Str 50) (reddit_id r))
  ++ field_error "subreddit" (str_ok (Str 100) (subreddit r))
  ++ field_error "title" (str_ok (Str 500) (title r))
  ++ field_error "author" (str_ok (Str 100) (author r))
  ++ field_error "url" (str_ok (Str 500) (url r))
  ++ field_error "permalink" (str_ok (Str 500) (permalink r))
  ++ field_error "estimated_duration"
       (decimal_ok (Dec 2 None None) (estimated_duration r)).

(** Columns declared [unique=True]. *)
Definition unique_columns : list (string * (t -> string)) :=
  [("reddit_id", reddit_id)].

End RedditPost.

Module BackgroundVideo.

Record t :=
  { id : option Z;
    filename : string;
    original_filename : string;
    file_path : string;
    file_size : Z;
    duration : Decimal;
    width : Z;
    height : Z;
    fps : Decimal;
    format : VideoFormat;
    description : string;
    tags : list string;
    user_id : Z;
    created_at : datetime;
    updated_at : datetime }.

Definition errors (v : t) : list string :=
  field_error "filename" (str_ok (Str 255) (filename v))
  ++ field_error "original_filename" (str_ok (Str 255) (original_filename v))
  ++ field_error "file_path" (str_ok (Str 500) (file_path v))
  ++ field_error "duration" (decimal_ok (Dec 2 None None) (duration v))
  ++ field_error "fps" (decimal_ok (Dec 2 None None) (fps v))
  ++ field_error "description" (str_ok (Str 500) (description v)).

End BackgroundVideo.

Module TTSConfiguration.

Record t :=
  { id : option Z;
    name : string;
    provider : TTSProvider;
    voice_id : string;
    voice_name : string;
    speed : Decimal;
    pitch : Decimal;
    volume : Decimal;
    settings : list (string * Json);
    is_default : bool;
    user_id : Z;
    created_at : datetime;
    updated_at : datetime }.

Definition errors (c : t) : list string :=
  field_error "name" (str_ok (Str 100) (name c))
  ++ field_error "voice_id" (str_ok (Str 100) (voice_id c))
  ++ field_error "voice_name" (str_ok (Str 100) (voice_name c))
  ++ field_error "speed"
       (decimal_ok (Dec 2 (Some (1 # 10)%Q) (Some (3 # 1)%Q)) (speed c))
  ++ field_error "pitch"
       (decimal_ok (Dec 2 (Some (1 # 10)%Q) (Some (2 # 1)%Q)) (pitch c))
  ++ field_error "volume"
       (decimal_ok (Dec 2 (Some (1 # 10)%Q) (Some (2 # 1)%Q)) (volume c)).

End TTSConfiguration.

Module SubtitleStyle.

Record t :=
  { id : option Z;
    name : string;
    font_family : string;
    font_size : Z;
    font_weight : string;
    font_color : string;
    background_color : option string;
    background_opacity : Decimal;
    outline_color : string;
    outline_width : Z;
    position_x : Decimal;
    position_y : Decimal;
    alignment : string;
    fade_in_duration : Decimal;
    fade_out_duration : Decimal;
    settings : list (string * Json);
    is_default : bool;
    user_id : Z;
    created_at : datetime;
    updated_at : datetime }.

Definition errors (y : t) : list string :=
  field_error "name" (str_ok (Str 100) (name y))
  ++ field_error "font_family" (str_ok (Str 100) (font_family y))
  ++ field_error "font_size" (int_ok (Int (Some 10) (Some 72)) (font_size y))
  ++ field_error "font_weight" (str_ok (Str 20) (font_weight y))
  ++ field_error "font_color" (str_ok (Str 7) (font_color y))
  ++ field_error "background_color"
       (optional (str_ok (Str 7)) (background_color y))
  ++ field_error "background_opacity"
       (decimal_ok (Dec 2 (Some (0 # 1)%Q) (Some (1 # 1)%Q))
          (background_opacity y))
  ++ field_error "outline_color" (str_ok (Str 7) (outline_color y))
  ++ field_error "outline_width"
       (int_ok (Int (Some 0) (Some 10)) (outline_width y))
  ++ field_error "position_x"
       (decimal_ok (Dec 3 (Some (0 # 1)%Q) (Some (1 # 1)%Q)) (position_x y))
  ++ field_error "position_y"
       (decimal_ok (Dec 3 (Some (0 # 1)%Q) (Some (1 # 1)%Q)) (position_y y))
  ++ field_error "alignment" (str_ok (Str 20) (alignment y))
  ++ field_error "fade_in_duration"
       (decimal_ok (Dec 2 (Some (0 # 1)%Q) None) (fade_in_duration y))
  ++ field_error "fade_out_duration"
       (decimal_ok (Dec 2 (Some (0 # 1)%Q) None) (fade_out_duration y)).

End SubtitleStyle.

Module VideoGenerationJob.

Record t :=
  { id : option Z;
    job_name : string;
    status : JobStatus;
    target_duration : Decimal;
    output_width : Z;
    output_height : Z;
    output_fps : Z;
    output_format : VideoFormat;
    progress_percentage : Decimal;
    current_step : string;
    estimated_completion : option datetime;
    output_filename : option string;
    output_file_path : option string;
    output_file_size : option Z;
    error_message : option string;
    retry_count : Z;
    max_retries : Z;
    processing_log : list string;
    processing_settings : list (string * Json);
    user_id : Z;
    reddit_post_id : Z;
    background_video_id : Z;
    tts_config_id : Z;
    subtitle_style_id : Z;
    created_at : datetime;
    started_at : option datetime;
    completed_at : option datetime;
    updated_at : datetime }.

Definition errors (j : t) : list string :=
  field_error "job_name" (str_ok (Str 200) (job_name j))
  ++ field_error "target_duration"
       (decimal_ok (Dec 2 (Some (1 # 1)%Q) None) (target_duration j))
  ++ field_error "output_width"
       (int_ok (Int (Some 480) (Some 1920)) (output_width j))
  ++ field_error "output_height"
       (int_ok (Int (Some 480) (Some 1920)) (output_height j))
  ++ field_error "output_fps" (int_ok (Int (Some 24) (Some 60)) (output_fps j))
  ++ field_error "progress_percentage"
       (decimal_ok (Dec 2 (Some (0 # 1)%Q) (Some (100 # 1)%Q))
          (progress_percentage j))
  ++ field_error "current_step" (str_ok (Str 200) (current_step j))
  ++ field_error "output_filename"
       (optional (str_ok (Str 255)) (output_filename j))
  ++ field_error "output_file_path"
       (optional (str_ok (Str 500)) (output_file_path j))
  ++ field_error "error_message"
       (optional (str_ok (Str 1000)) (error_message j))
  ++ field_error "retry_count" (int_ok (Int (Some 0) None) (retry_count j))
  ++ field_error "max_retries" (int_ok (Int (Some 0) None) (max_retries j)).

End VideoGenerationJob.

Module JobProgressUpdate.

Record t :=
  { id : option Z;
    progress_percentage : Decimal;
    step_name : string;
    step_description : string;
    update_metadata : list (string * Json);
    video_job_id : Z;
    created_at : datetime }.

Definition errors (p : t) : list string :=
  field_error "progress_percentage"
    (decimal_ok (Dec 2 (Some (0 # 1)%Q) (Some (100 # 1)%Q))
       (progress_percentage p))
  ++ field_error "step_name" (str_ok (Str 200) (step_name p))
  ++ field_error "step_description" (str_ok (Str 500) (step_description p)).

End JobProgressUpdate.

(** ** Non-persistent schemas (validation of requests)

    A schema instance exists only when its fields satisfy their
    declarations; [errors] lists the fields that do not. *)

Module UserCreate.

Record t :=
  { username : string;
    email : string;
    reddit_client_id : option string;
    reddit_client_secret : option string;
    tts_api_key : option string }.

Definition errors (c : t) : list string :=
  field_error "username" (str_ok (Str 100) (username c))
  ++ field_error "email" (str_ok (Str 255) (email c))
  ++ field_error "reddit_client_id"
       (optional (str_ok (Str 500)) (reddit_client_id c))
  ++ field_error "reddit_client_secret"
       (optional (str_ok (Str 500)) (reddit_client_secret c))
  ++ field_error "tts_api_key" (optional (str_ok (Str 500)) (tts_api_key c)).

End UserCreate.

Module UserUpdate.

Record t :=
  { username : option string;
    email : option string;
    is_active : option bool;
    reddit_client_id : option string;
    reddit_client_secret : option string;
    tts_api_key : option string }.

Definition errors (u : t) : list string :=
  field_error "username" (optional (str_ok (Str 100)) (username u))
  ++ field_error "email" (optional (str_ok (Str 255)) (email u))
  ++ field_error "reddit_client_id"
       (optional (str_ok (Str 500)) (reddit_client_id u))
  ++ field_error "reddit_client_secret"
       (optional (str_ok (Str 500)) (reddit_client_secret u))
  ++ field_error "tts_api_key" (optional (str_ok (Str 500)) (tts_api_key u)).

End UserUpdate.

Module RedditPostCreate.

Record t :=
  { reddit_id : string;
    subreddit : string;
    title : string;
    content : string;
    author : string;
    score : Z;
    num_comments : Z;
    created_utc : datetime;
    url : string;
    permalink : string;
    word_count : Z;
    estimated_duration : Decimal;
    user_id : Z }.

Definition errors (c : t) : list string :=
  field_error "reddit_id" (str_ok (Str 50) (reddit_id c))
  ++ field_error "subreddit" (str_ok (Str 100) (subreddit c))
  ++ field_error "title" (str_ok (Str 500) (title c))
  ++ field_error "author" (str_ok (Str 100) (author c))
  ++ field_error "url" (str_ok (Str 500) (url c))
  ++ field_error "permalink" (str_ok (Str 500) (permalink c))
  ++ field_error "estimated_duration"
       (decimal_ok (Dec 2 None None) (estimated_duration c)).

End RedditPostCreate.

Module BackgroundVideoCreate.

Record t :=
  { filename : string;
    original_filename : string;
    file_path : string;
    file_size : Z;
    duration : Decimal;
    width : Z;
    height : Z;
    fps : Decimal;
    format : VideoFormat;
    description : string;
    tags : list string;
    user_id : Z }.

Definition errors (c : t) : list string :=
  field_error "filename" (str_ok (Str 255) (filename c))
  ++ field_error "original_filename" (str_ok (Str 255) (original_filename c))
  ++ field_error "file_path" (str_ok (Str 500) (file_path c))
  ++ field_error "duration" (decimal_ok (Dec 2 None None) (duration c))
  ++ field_error "fps" (decimal_ok (Dec 2 None None) (fps c))
  ++ field_error "description" (str_ok (Str 500) (description c)).

End BackgroundVideoCreate.

Module BackgroundVideoUpdate.

Record t :=
  { description : option string;
    tags : option (list string) }.

Definition errors (u : t) : list string :=
  field_error "description" (optional (str_ok (Str 500)) (description u)).

End BackgroundVideoUpdate.

Module TTSConfigurationCreate.

Record t :=
  { name : string;
    provider : TTSProvider;
    voice_id : string;
    voice_name : string;
    speed : Decimal;
    pitch : Decimal;
    volume : Decimal;
    settings : list (string * Json);
    is_default : bool;
    user_id : Z }.

Definition errors (c : t) : list string :=
  field_error "name" (str_ok (Str 100) (name c))
  ++ field_error "voice_id" (str_ok (Str 100) (voice_id c))
  ++ field_error "voice_name" (str_ok (Str 100) (voice_name c))
  ++ field_error "speed"
       (decimal_ok (Dec 2 (Some (1 # 10)%Q) (Some (3 # 1)%Q)) (speed c))
  ++ field_error "pitch"
       (decimal_ok (Dec 2 (Some (1 # 10)%Q) (Some (2 # 1)%Q)) (pitch c))
  ++ field_error "volume"
       (decimal_ok (Dec 2 (Some (1 # 10)%Q) (Some (2 # 1)%Q)) (volume c)).

End TTSConfigurationCreate.

Module TTSConfigurationUpdate.

Record t :=
  { name : option string;
    voice_id : option string;
    voice_name : option string;
    speed : option Decimal;
    pitch : option Decimal;
    volume : option Decimal;
    settings : option (list (string * Json));
    is_default : option bool }.

Definition errors (u : t) : list string :=
  field_error "name" (optional (str_ok (Str 100)) (name u))
  ++ field_error "voice_id" (optional (str_ok (Str 100)) (voice_id u))
  ++ field_error "voice_name" (optional (str_ok (Str 100)) (voice_name u))
  ++ field_error "speed"
       (optional (decimal_ok (Dec 2 (Some (1 # 10)%Q) (Some (3 # 1)%Q)))
          (speed u))
  ++ field_error "pitch"
       (optional (decimal_ok (Dec 2 (Some (1 # 10)%Q) (Some (2 # 1)%Q)))
          (pitch u))
  ++ field_error "volume"
       (optional (decimal_ok (Dec 2 (Some (1 # 10)%Q) (Some (2 # 1)%Q)))
          (volume u)).

End TTSConfigurationUpdate.

Module SubtitleStyleCreate.

Record t :=
  { name : string;
    font_family : string;
    font_size : Z;
    font_weight : string;
    font_color : string;
    background_color : option string;
    background_opacity : Decimal;
    outline_color : string;
    outline_width : Z;
    position_x : Decimal;
    position_y : Decimal;
    alignment : string;
    fade_in_duration : Decimal;
    fade_out_duration : Decimal;
    settings : list (string * Json);
    is_default : bool;
    user_id : Z }.

Definition errors (c : t) : list string :=
  field_error "name" (str_ok (Str 100) (name c))
  ++ field_error "font_family" (str_ok (Str 100) (font_family c))
  ++ field_error "font_size" (int_ok (Int (Some 10) (Some 72)) (font_size c))
  ++ field_error "font_weight" (str_ok (Str 20) (font_weight c))
  ++ field_error "font_color" (str_ok (Str 7) (font_color c))
  ++ field_error "background_color"
       (optional (str_ok (Str 7)) (background_color c))
  ++ field_error "background_opacity"
       (decimal_ok (Dec 2 (Some (0 # 1)%Q) (Some (1 # 1)%Q))
          (background_opacity c))
  ++ field_error "outline_color" (str_ok (Str 7) (outline_color c))
  ++ field_error "outline_width"
       (int_ok (Int (Some 0) (Some 10)) (outline_width c))
  ++ field_error "position_x"
       (decimal_ok (Dec 3 (Some (0 # 1)%Q) (Some (1 # 1)%Q)) (position_x c))
  ++ field_error "position_y"
       (decimal_ok (Dec 3 (Some (0 # 1)%Q) (Some (1 # 1)%Q)) (position_y c))
  ++ field_error "alignment" (str_ok (Str 20) (alignment c))
  ++ field_error "fade_in_duration"
       (decimal_ok (Dec 2 (Some (0 # 1)%Q) None) (fade_in_duration c))
  ++ field_error "fade_out_duration"
       (decimal_ok (Dec 2 (Some (0 # 1)%Q) None) (fade_out_duration c)).

End SubtitleStyleCreate.

Module SubtitleStyleUpdate.

Record t :=
  { name : option string;
    font_family : option string;
    font_size : option Z;
    font_weight : option string;
    font_color : option string;
    background_color : option string;
    background_opacity : option Decimal;
    outline_color : option string;
    outline_width : option Z;
    position_x : option Decimal;
    position_y : option Decimal;
    alignment : option string;
    fade_in_duration : option Decimal;
    fade_out_duration : option Decimal;
    settings : option (list (string * Json));
    is_default : option bool }.

Definition errors (u : t) : list string :=
  field_error "name" (optional (str_ok (Str 100)) (name u))
  ++ field_error "font_family" (optional (str_ok (Str 100)) (font_family u))
  ++ field_error "font_size"
       (optional (int_ok (Int (Some 10) (Some 72))) (font_size u))
  ++ field_error "font_weight" (optional (str_ok (Str 20)) (font_weight u))
  ++ field_error "font_color" (optional (str_ok (Str 7)) (font_color u))
  ++ field_error "background_color"
       (optional (str_ok (Str 7)) (background_color u))
  ++ field_error "background_opacity"
       (optional (decimal_ok (Dec 2 (Some (0 # 1)%Q) (Some (1 # 1)%Q)))
          (background_opacity u))
  ++ field_error "outline_color" (optional (str_ok (Str 7)) (outline_color u))
  ++ field_error "outline_width"
       (optional (int_ok (Int (Some 0) (Some 10))) (outline_width u))
  ++ field_error "position_x"
       (optional (decimal_ok (Dec 3 (Some (0 # 1)%Q) (Some (1 # 1)%Q)))
          (position_x u))
  ++ field_error "position_y"
       (optional (decimal_ok (Dec 3 (Some (0 # 1)%Q) (Some (1 # 1)%Q)))
          (position_y u))
  ++ field_error "alignment" (optional (str_ok (Str 20)) (alignment u))
  ++ field_error "fade_in_duration"
       (optional (decimal_ok (Dec 2 (Some (0 # 1)%Q) None))
          (fade_in_duration u))
  ++ field_error "fade_out_duration"
       (optional (decimal_ok (Dec 2 (Some (0 # 1)%Q) None))
          (fade_out_duration u)).

End SubtitleStyleUpdate.

Module VideoGenerationJobCreate.

Record t :=
  { job_name : string;
    target_duration : Decimal;
    output_width : Z;
    output_height : Z;
    output_fps : Z;
    output_format : VideoFormat;
    processing_settings : list (string * Json);
    user_id : Z;
    reddit_post_id : Z;
    background_video_id : Z;
    tts_config_id : Z;
    subtitle_style_id : Z }.

Definition errors (c : t) : list string :=
  field_error "job_name" (str_ok (Str 200) (job_name c))
  ++ field_error "target_duration"
       (decimal_ok (Dec 2 (Some (1 # 1)%Q) None) (target_duration c))
  ++ field_error "output_width"
       (int_ok (Int (Some 480) (Some 1920)) (output_width c))
  ++ field_error "output_height"
       (int_ok (Int (Some 480) (Some 1920)) (output_height c))
  ++ field_error "output_fps" (int_ok (Int (Some 24) (Some 60)) (output_fps c)).

End VideoGenerationJobCreate.

Module VideoGenerationJobUpdate.

Record t :=
  { job_name : option string;
    status : option JobStatus;
    progress_percentage : option Decimal;
    current_step : option string;
    estimated_completion : option datetime;
    output_filename : option string;
    output_file_path : option string;
    output_file_size : option Z;
    error_message : option string }.

Definition errors (u : t) : list string :=
  field_error "job_name" (optional (str_ok (Str 200)) (job_name u))
  ++ field_error "progress_percentage"
       (optional (decimal_ok (Dec 2 (Some (0 # 1)%Q) (Some (100 # 1)%Q)))
          (progress_percentage u))
  ++ field_error "current_step" (optional (str_ok (Str 200)) (current_step u))
  ++ field_error "output_filename"
       (optional (str_ok (Str 255)) (output_filename u))
  ++ field_error "output_file_path"
       (optional (str_ok (Str 500)) (output_file_path u))
  ++ field_error "error_message"
       (optional (str_ok (Str 1000)) (error_message u)).

End VideoGenerationJobUpdate.

Module JobProgressUpdateCreate.

Record t :=
  { progress_percentage : Decimal;
    step_name : string;
    step_description : string;
    update_metadata : list (string * Json);
    video_job_id : Z }.

Definition errors (c : t) : list string :=
  field_error "progress_percentage"
    (decimal_ok (Dec 2 (Some (0 # 1)%Q) (Some (100 # 1)%Q))
       (progress_percentage c))
  ++ field_error "step_name" (str_ok (Str 200) (step_name c))
  ++ field_error "step_description" (str_ok (Str 500) (step_description c)).

End JobProgressUpdateCreate.

(** ** Building rows and applying updates

    A row is built from a Create schema field by field; the columns the
    schema does not carry take the defaults the table declares, the
    timestamps with [default_factory=datetime.utcnow] take the clock, and
    the primary key is the one the table assigns. *)

Definition User_of (id : Z) (now : datetime) (c : UserCreate.t) : User.t :=
  {| User.id := Some id;
     User.username := UserCreate.username c;
     User.email := UserCreate.email c;
     User.is_active := true;
     User.created_at := now;
     User.updated_at := now;
     User.reddit_client_id := UserCreate.reddit_client_id c;
     User.reddit_client_secret := UserCreate.reddit_client_secret c;
     User.tts_api_key := UserCreate.tts_api_key c |}.

Definition RedditPost_of (id : Z) (now : datetime) (c : RedditPostCreate.t)
  : RedditPost.t :=
  {| RedditPost.id := Some id;
     RedditPost.reddit_id := RedditPostCreate.reddit_id c;
     RedditPost.subreddit := RedditPostCreate.subreddit c;
     RedditPost.title := RedditPostCreate.title c;
     RedditPost.content := RedditPostCreate.content c;
     RedditPost.author := RedditPostCreate.author c;
     RedditPost.score := RedditPostCreate.score c;
     RedditPost.num_comments := RedditPostCreate.num_comments c;
     RedditPost.created_utc := RedditPostCreate.created_utc c;
     RedditPost.url := RedditPostCreate.url c;
     RedditPost.permalink := RedditPostCreate.permalink c;
     RedditPost.word_count := RedditPostCreate.word_count c;
     RedditPost.estimated_duration := RedditPostCreate.estimated_duration c;
     RedditPost.user_id := RedditPostCreate.user_id c;
     RedditPost.created_at := now |}.

Definition BackgroundVideo_of (id : Z) (now : datetime)
  (c : BackgroundVideoCreate.t) : BackgroundVideo.t :=
  {| BackgroundVideo.id := Some id;
     BackgroundVideo.filename := BackgroundVideoCreate.filename c;
     BackgroundVideo.original_filename :=
       BackgroundVideoCreate.original_filename c;
     BackgroundVideo.file_path := BackgroundVideoCreate.file_path c;
     BackgroundVideo.file_size := BackgroundVideoCreate.file_size c;
     BackgroundVideo.duration := BackgroundVideoCreate.duration c;
     BackgroundVideo.width := BackgroundVideoCreate.width c;
     BackgroundVideo.height := BackgroundVideoCreate.height c;
     BackgroundVideo.fps := BackgroundVideoCreate.fps c;
     BackgroundVideo.format := BackgroundVideoCreate.format c;
     BackgroundVideo.description := BackgroundVideoCreate.description c;
     BackgroundVideo.tags := BackgroundVideoCreate.tags c;
     BackgroundVideo.user_id := BackgroundVideoCreate.user_id c;
     BackgroundVideo.created_at := now;
     BackgroundVideo.updated_at := now |}.

Definition TTSConfiguration_of (id : Z) (now : datetime)
  (c : TTSConfigurationCreate.t) : TTSConfiguration.t :=
  {| TTSConfiguration.id := Some id;
     TTSConfiguration.name := TTSConfigurationCreate.name c;
     TTSConfiguration.provider := TTSConfigurationCreate.provider c;
     TTSConfiguration.voice_id := TTSConfigurationCreate.voice_id c;
     TTSConfiguration.voice_name := TTSConfigurationCreate.voice_name c;
     TTSConfiguration.speed := TTSConfigurationCreate.speed c;
     TTSConfiguration.pitch := TTSConfigurationCreate.pitch c;
     TTSConfiguration.volume := TTSConfigurationCreate.volume c;
     TTSConfiguration.settings := TTSConfigurationCreate.settings c;
     TTSConfiguration.is_default := TTSConfigurationCreate.is_default c;
     TTSConfiguration.user_id := TTSConfigurationCreate.user_id c;
     TTSConfiguration.created_at := now;
     TTSConfiguration.updated_at := now |}.

Definition SubtitleStyle_of (id : Z) (now : datetime)
  (c : SubtitleStyleCreate.t) : SubtitleStyle.t :=
  {| SubtitleStyle.id := Some id;
     SubtitleStyle.name := SubtitleStyleCreate.name c;
     SubtitleStyle.font_family := SubtitleStyleCreate.font_family c;
     SubtitleStyle.font_size := SubtitleStyleCreate.font_size c;
     SubtitleStyle.font_weight := SubtitleStyleCreate.font_weight c;
     SubtitleStyle.font_color := SubtitleStyleCreate.font_color c;
     SubtitleStyle.background_color := SubtitleStyleCreate.background_color c;
     SubtitleStyle.background_opacity :=
       SubtitleStyleCreate.background_opacity c;
     SubtitleStyle.outline_color := SubtitleStyleCreate.outline_color c;
     SubtitleStyle.outline_width := SubtitleStyleCreate.outline_width c;
     SubtitleStyle.position_x := SubtitleStyleCreate.position_x c;
     SubtitleStyle.position_y := SubtitleStyleCreate.position_y c;
     SubtitleStyle.alignment := SubtitleStyleCreate.alignment c;
     SubtitleStyle.fade_in_duration := SubtitleStyleCreate.fade_in_duration c;
     SubtitleStyle.fade_out_duration :=
       SubtitleStyleCreate.fade_out_duration c;
     SubtitleStyle.settings := SubtitleStyleCreate.settings c;
     SubtitleStyle.is_default := SubtitleStyleCreate.is_default c;
     SubtitleStyle.user_id := SubtitleStyleCreate.user_id c;
     SubtitleStyle.created_at := now;
     SubtitleStyle.updated_at := now |}.

Definition VideoGenerationJob_of (id : Z) (now : datetime)
  (c : VideoGenerationJobCreate.t) : VideoGenerationJob.t :=
  {| VideoGenerationJob.id := Some id;
     VideoGenerationJob.job_name := VideoGenerationJobCreate.job_name c;
     VideoGenerationJob.status := PENDING;
     VideoGenerationJob.target_duration :=
       VideoGenerationJobCreate.target_duration c;
     VideoGenerationJob.output_width :=
       VideoGenerationJobCreate.output_width c;
     VideoGenerationJob.output_height :=
       VideoGenerationJobCreate.output_height c;
     VideoGenerationJob.output_fps := VideoGenerationJobCreate.output_fps c;
     VideoGenerationJob.output_format :=
       VideoGenerationJobCreate.output_format c;
     VideoGenerationJob.progress_percentage := DFinite 0 0;
     VideoGenerationJob.current_step := "";
     VideoGenerationJob.estimated_completion := None;
     VideoGenerationJob.output_filename := None;
     VideoGenerationJob.output_file_path := None;
     VideoGenerationJob.output_file_size := None;
     VideoGenerationJob.error_message := None;
     VideoGenerationJob.retry_count := 0;
     VideoGenerationJob.max_retries := 3;
     VideoGenerationJob.processing_log := [];
     VideoGenerationJob.processing_settings :=
       VideoGenerationJobCreate.processing_settings c;
     VideoGenerationJob.user_id := VideoGenerationJobCreate.user_id c;
     VideoGenerationJob.reddit_post_id :=
       VideoGenerationJobCreate.reddit_post_id c;
     VideoGenerationJob.background_video_id :=
       VideoGenerationJobCreate.background_video_id c;
     VideoGenerationJob.tts_config_id :=
       VideoGenerationJobCreate.tts_config_id c;
     VideoGenerationJob.subtitle_style_id :=
       VideoGenerationJobCreate.subtitle_style_id c;
     VideoGenerationJob.created_at := now;
     VideoGenerationJob.started_at := None;
     VideoGenerationJob.completed_at := None;
     VideoGenerationJob.updated_at := now |}.

Definition JobProgressUpdate_of (id : Z) (now : datetime)
  (c : JobProgressUpdateCreate.t) : JobProgressUpdate.t :=
  {| JobProgressUpdate.id := Some id;
     JobProgressUpdate.progress_percentage :=
       JobProgressUpdateCreate.progress_percentage c;
     JobProgressUpdate.step_name := JobProgressUpdateCreate.step_name c;
     JobProgressUpdate.step_description :=
       JobProgressUpdateCreate.step_description c;
     JobProgressUpdate.update_metadata :=
       JobProgressUpdateCreate.update_metadata c;
     JobProgressUpdate.video_job_id := JobProgressUpdateCreate.video_job_id c;
     JobProgressUpdate.created_at := now |}.

(** An Update schema has every field optional with default [None]: a
    field left at [None] keeps the stored value, a field that is given
    overwrites it. Columns the schema does not declare cannot be written
    through it. *)

Definition given {A : Type} (new : option A) (old : A) : A :=
  match new with
  | Some v => v
  | None => old
  end.

Definition given_opt {A : Type} (new old : option A) : option A :=
  match new with
  | Some _ => new
  | None => old
  end.

Definition User_update (u : UserUpdate.t) (r : User.t) : User.t :=
  {| User.id := User.id r;
     User.username := given (UserUpdate.username u) (User.username r);
     User.email := given (UserUpdate.email u) (User.email r);
     User.is_active := given (UserUpdate.is_active u) (User.is_active r);
     User.created_at := User.created_at r;
     User.updated_at := User.updated_at r;
     User.reddit_client_id :=
       given_opt (UserUpdate.reddit_client_id u) (User.reddit_client_id r);
     User.reddit_client_secret :=
       given_opt (UserUpdate.reddit_client_secret u)
         (User.reddit_client_secret r);
     User.tts_api_key :=
       given_opt (UserUpdate.tts_api_key u) (User.tts_api_key r) |}.

Definition BackgroundVideo_update (u : BackgroundVideoUpdate.t)
  (r : BackgroundVideo.t) : BackgroundVideo.t :=
  {| BackgroundVideo.id := BackgroundVideo.id r;
     BackgroundVideo.filename := BackgroundVideo.filename r;
     BackgroundVideo.original_filename := BackgroundVideo.original_filename r;
     BackgroundVideo.file_path := BackgroundVideo.file_path r;
     BackgroundVideo.file_size := BackgroundVideo.file_size r;
     BackgroundVideo.duration := BackgroundVideo.duration r;
     BackgroundVideo.width := BackgroundVideo.width r;
     BackgroundVideo.height := BackgroundVideo.height r;
     BackgroundVideo.fps := BackgroundVideo.fps r;
     BackgroundVideo.format := BackgroundVideo.format r;
     BackgroundVideo.description :=
       given (BackgroundVideoUpdate.description u)
         (BackgroundVideo.description r);
     BackgroundVideo.tags :=
       given (BackgroundVideoUpdate.tags u) (BackgroundVideo.tags r);
     BackgroundVideo.user_id := BackgroundVideo.user_id r;
     BackgroundVideo.created_at := BackgroundVideo.created_at r;
     BackgroundVideo.updated_at := BackgroundVideo.updated_at r |}.

Definition TTSConfiguration_update (u : TTSConfigurationUpdate.t)
  (r : TTSConfiguration.t) : TTSConfiguration.t :=
  {| TTSConfiguration.id := TTSConfiguration.id r;
     TTSConfiguration.name :=
       given (TTSConfigurationUpdate.name u) (TTSConfiguration.name r);
     TTSConfiguration.provider := TTSConfiguration.provider r;
     TTSConfiguration.voice_id :=
       given (TTSConfigurationUpdate.voice_id u) (TTSConfiguration.voice_id r);
     TTSConfiguration.voice_name :=
       given (TTSConfigurationUpdate.voice_name u)
         (TTSConfiguration.voice_name r);
     TTSConfiguration.speed :=
       given (TTSConfigurationUpdate.speed u) (TTSConfiguration.speed r);
     TTSConfiguration.pitch :=
       given (TTSConfigurationUpdate.pitch u) (TTSConfiguration.pitch r);
     TTSConfiguration.volume :=
       given (TTSConfigurationUpdate.volume u) (TTSConfiguration.volume r);
     TTSConfiguration.settings :=
       given (TTSConfigurationUpdate.settings u) (TTSConfiguration.settings r);
     TTSConfiguration.is_default :=
       given (TTSConfigurationUpdate.is_default u)
         (TTSConfiguration.is_default r);
     TTSConfiguration.user_id := TTSConfiguration.user_id r;
     TTSConfiguration.created_at := TTSConfiguration.created_at r;
     TTSConfiguration.updated_at := TTSConfiguration.updated_at r |}.

Definition SubtitleStyle_update (u : SubtitleStyleUpdate.t)
  (r : SubtitleStyle.t) : SubtitleStyle.t :=
  {| SubtitleStyle.id := SubtitleStyle.id r;
     SubtitleStyle.name :=
       given (SubtitleStyleUpdate.name u) (SubtitleStyle.name r);
     SubtitleStyle.font_family :=
       given (SubtitleStyleUpdate.font_family u) (SubtitleStyle.font_family r);
     SubtitleStyle.font_size :=
       given (SubtitleStyleUpdate.font_size u) (SubtitleStyle.font_size r);
     SubtitleStyle.font_weight :=
       given (SubtitleStyleUpdate.font_weight u) (SubtitleStyle.font_weight r);
     SubtitleStyle.font_color :=
       given (SubtitleStyleUpdate.font_color u) (SubtitleStyle.font_color r);
     SubtitleStyle.background_color :=
       given_opt (SubtitleStyleUpdate.background_color u)
         (SubtitleStyle.background_color r);
     SubtitleStyle.background_opacity :=
       given (SubtitleStyleUpdate.background_opacity u)
         (SubtitleStyle.background_opacity r);
     SubtitleStyle.outline_color :=
       given (SubtitleStyleUpdate.outline_color u)
         (SubtitleStyle.outline_color r);
     SubtitleStyle.outline_width :=
       given (SubtitleStyleUpdate.outline_width u)
         (SubtitleStyle.outline_width r);
     SubtitleStyle.position_x :=
       given (SubtitleStyleUpdate.position_x u) (SubtitleStyle.position_x r);
     SubtitleStyle.position_y :=
       given (SubtitleStyleUpdate.position_y u) (SubtitleStyle.position_y r);
     SubtitleStyle.alignment :=
       given (SubtitleStyleUpdate.alignment u) (SubtitleStyle.alignment r);
     SubtitleStyle.fade_in_duration :=
       given (SubtitleStyleUpdate.fade_in_duration u)
         (SubtitleStyle.fade_in_duration r);
     SubtitleStyle.fade_out_duration :=
       given (SubtitleStyleUpdate.fade_out_duration u)
         (SubtitleStyle.fade_out_duration r);
     SubtitleStyle.settings :=
       given (SubtitleStyleUpdate.settings u) (SubtitleStyle.settings r);
     SubtitleStyle.is_default :=
       given (SubtitleStyleUpdate.is_default u) (SubtitleStyle.is_default r);
     SubtitleStyle.user_id := SubtitleStyle.user_id r;
     SubtitleStyle.created_at := SubtitleStyle.created_at r;
     SubtitleStyle.updated_at := SubtitleStyle.updated_at r |}.

Definition VideoGenerationJob_update (u : VideoGenerationJobUpdate.t)
  (r : VideoGenerationJob.t) : VideoGenerationJob.t :=
  {| VideoGenerationJob.id := VideoGenerationJob.id r;
     VideoGenerationJob.job_name :=
       given (VideoGenerationJobUpdate.job_name u)
         (VideoGenerationJob.job_name r);
     VideoGenerationJob.status :=
       given (VideoGenerationJobUpdate.status u) (VideoGenerationJob.status r);
     VideoGenerationJob.target_duration := VideoGenerationJob.target_duration r;
     VideoGenerationJob.output_width := VideoGenerationJob.output_width r;
     VideoGenerationJob.output_height := VideoGenerationJob.output_height r;
     VideoGenerationJob.output_fps := VideoGenerationJob.output_fps r;
     VideoGenerationJob.output_format := VideoGenerationJob.output_format r;
     VideoGenerationJob.progress_percentage :=
       given (VideoGenerationJobUpdate.progress_percentage u)
         (VideoGenerationJob.progress_percentage r);
     VideoGenerationJob.current_step :=
       given (VideoGenerationJobUpdate.current_step u)
         (VideoGenerationJob.current_step r);
     VideoGenerationJob.estimated_completion :=
       given_opt (VideoGenerationJobUpdate.estimated_completion u)
         (VideoGenerationJob.estimated_completion r);
     VideoGenerationJob.output_filename :=
       given_opt (VideoGenerationJobUpdate.output_filename u)
         (VideoGenerationJob.output_filename r);
     VideoGenerationJob.output_file_path :=
       given_opt (VideoGenerationJobUpdate.output_file_path u)
         (VideoGenerationJob.output_file_path r);
     VideoGenerationJob.output_file_size :=
       given_opt (VideoGenerationJobUpdate.output_file_size u)
         (VideoGenerationJob.output_file_size r);
     VideoGenerationJob.error_message :=
       given_opt (VideoGenerationJobUpdate.error_message u)
         (VideoGenerationJob.error_message r);
     VideoGenerationJob.retry_count := VideoGenerationJob.retry_count r;
     VideoGenerationJob.max_retries := VideoGenerationJob.max_retries r;
     VideoGenerationJob.processing_log := VideoGenerationJob.processing_log r;
     VideoGenerationJob.processing_settings :=
       VideoGenerationJob.processing_settings r;
     VideoGenerationJob.user_id := VideoGenerationJob.user_id r;
     VideoGenerationJob.reddit_post_id := VideoGenerationJob.reddit_post_id r;
     VideoGenerationJob.background_video_id :=
       VideoGenerationJob.background_video_id r;
     VideoGenerationJob.tts_config_id := VideoGenerationJob.tts_config_id r;
     VideoGenerationJob.subtitle_style_id :=
       VideoGenerationJob.subtitle_style_id r;
     VideoGenerationJob.created_at := VideoGenerationJob.created_at r;
     VideoGenerationJob.started_at := VideoGenerationJob.started_at r;
     VideoGenerationJob.completed_at := VideoGenerationJob.completed_at r;
     VideoGenerationJob.updated_at := VideoGenerationJob.updated_at r |}.

(** ** The Job Record Store

    The source declares the tables and the schemas; it has no code that
    stores a row. The store below is modelled from the spec's contract of
    the Job Record Store (section 4.1): a create or an update validates
    the field constraints, the uniqueness and the references, signals
    ValidationError, ConflictError or NotFoundError, and is one atomic
    transaction (section 5). The constraints themselves are the ones the
    source declares. The status state machine of section 4.1 and the
    ordering of progress entries of section 8 are not part of this model:
    an update writes the fields it is given, and a progress entry is
    appended. *)

(** Modelled from the spec: the state of the store, one list of rows per
    table in insertion order, under the table names the source declares. *)
Record Store :=
  { users : list User.t;
    reddit_posts : list RedditPost.t;
    background_videos : list BackgroundVideo.t;
    tts_configurations : list TTSConfiguration.t;
    subtitle_styles : list SubtitleStyle.t;
    video_generation_jobs : list VideoGenerationJob.t;
    job_progress_updates : list JobProgressUpdate.t }.

(** Modelled from the spec: the store before any operation. *)
Definition empty_store : Store :=
  {| users := []; reddit_posts := []; background_videos := [];
     tts_configurations := []; subtitle_styles := [];
     video_generation_jobs := []; job_progress_updates := [] |}.

(** Modelled from the spec: the store with another users table. *)
Definition with_users (s : Store) (rows : list User.t) : Store :=
  {| users := rows; reddit_posts := reddit_posts s;
     background_videos := background_videos s;
     tts_configurations := tts_configurations s;
     subtitle_styles := subtitle_styles s;
     video_generation_jobs := video_generation_jobs s;
     job_progress_updates := job_progress_updates s |}.

(** Modelled from the spec: the store with another reddit_posts table. *)
Definition with_reddit_posts (s : Store) (rows : list RedditPost.t) : Store :=
  {| users := users s; reddit_posts := rows;
     background_videos := background_videos s;
     tts_configurations := tts_configurations s;
     subtitle_styles := subtitle_styles s;
     video_generation_jobs := video_generation_jobs s;
     job_progress_updates := job_progress_updates s |}.

(** Modelled from the spec: the store with another background_videos table.
    *)
Definition with_background_videos (s : Store) (rows : list BackgroundVideo.t)
  : Store :=
  {| users := users s; reddit_posts := reddit_posts s;
     background_videos := rows;
     tts_configurations := tts_configurations s;
     subtitle_styles := subtitle_styles s;
     video_generation_jobs := video_generation_jobs s;
     job_progress_updates := job_progress_updates s |}.

(** Modelled from the spec: the store with another tts_configurations table.
    *)
Definition with_tts_configurations (s : Store)
  (rows : list TTSConfiguration.t) : Store :=
  {| users := users s; reddit_posts := reddit_posts s;
     background_videos := background_videos s;
     tts_configurations := rows;
     subtitle_styles := subtitle_styles s;
     video_generation_jobs := video_generation_jobs s;
     job_progress_updates := job_progress_updates s |}.

(** Modelled from the spec: the store with another subtitle_styles table. *)
Definition with_subtitle_styles (s : Store) (rows : list SubtitleStyle.t)
  : Store :=
  {| users := users s; reddit_posts := reddit_posts s;
     background_videos := background_videos s;
     tts_configurations := tts_configurations s;
     subtitle_styles := rows;
     video_generation_jobs := video_generation_jobs s;
     job_progress_updates := job_progress_updates s |}.

(** Modelled from the spec: the store with another video_generation_jobs
    table. *)
Definition with_video_generation_jobs (s : Store)
  (rows : list VideoGenerationJob.t) : Store :=
  {| users := users s; reddit_posts := reddit_posts s;
     background_videos := background_videos s;
     tts_configurations := tts_configurations s;
     subtitle_styles := subtitle_styles s;
     video_generation_jobs := rows;
     job_progress_updates := job_progress_updates s |}.

(** Modelled from the spec: the store with another job_progress_updates
    table. *)
Definition with_job_progress_updates (s : Store)
  (rows : list JobProgressUpdate.t) : Store :=
  {| users := users s; reddit_posts := reddit_posts s;
     background_videos := background_videos s;
     tts_configurations := tts_configurations s;
     subtitle_styles := subtitle_styles s;
     video_generation_jobs := video_generation_jobs s;
     job_progress_updates := rows |}.

(** *** Sequencing of checks *)

(** Modelled from the spec: the checks of an operation run in sequence; the
    first error ends the operation. *)
Definition bind {A B : Type} (r : Result A) (k : A -> Result B) : Result B :=
  match r with
  | Ok a => k a
  | Err e => Err e
  end.

Notation "x <- r ;; k" := (bind r (fun x => k))
  (at level 61, r at next level, right associativity).

Notation "r ;; k" := (bind r (fun _ => k))
  (at level 61, right associativity).

(** Modelled from the spec: an operation is one atomic transaction: it
    commits the new store or keeps the old. *)
Definition transaction {A : Type} (s : Store) (r : Result (Store * A))
  : Store * Result A :=
  match r with
  | Ok (s', a) => (s', Ok a)
  | Err e => (s, Err e)
  end.

(** *** Primary keys, foreign keys, unique columns *)

(** Modelled from the spec: the primary key the store assigns to a new row.
    *)
Definition next_id {A : Type} (rows : list A) : Z :=
  Z.of_nat (List.length rows) + 1.

(** Modelled from the spec: the row has primary key [k]. *)
Definition has_id {A : Type} (id : A -> option Z) (k : Z) (r : A) : bool :=
  match id r with
  | Some i => i =? k
  | None => false
  end.

(** Modelled from the spec: lookup of a row by primary key; a key no row has
    is a NotFoundError. *)
Definition get {A : Type} (table : string) (id : A -> option Z) (k : Z)
  (rows : list A) : Result A :=
  match find (has_id id k) rows with
  | Some r => Ok r
  | None => Err (NotFoundError table)
  end.

(** Modelled from the spec: the table with [f] applied to the row of key
    [k]. *)
Definition modify {A : Type} (id : A -> option Z) (k : Z) (f : A -> A)
  (rows : list A) : list A :=
  map (fun r => if has_id id k r then f r else r) rows.

(** Modelled from the spec: referential integrity: a foreign key that names
    no stored row is a NotFoundError. *)
Definition foreign_key {A : Type} (column : string) (id : A -> option Z)
  (k : Z) (rows : list A) : Result unit :=
  if existsb (has_id id k) rows then Ok tt else Err (NotFoundError column).

(** Modelled from the spec: some other row has the value of [r] in the
    column. *)
Definition taken {A : Type} (column : A -> string) (r : A) (others : list A)
  : bool :=
  existsb (fun o => String.eqb (column o) (column r)) others.

(** Modelled from the spec: uniqueness: a value of a unique column that
    another row has is a ConflictError on that column. *)
Definition unique {A : Type} (columns : list (string * (A -> string)))
  (r : A) (others : list A) : Result unit :=
  match find (fun nc => taken (snd nc) r others) columns with
  | Some nc => Err (ConflictError (fst nc))
  | None => Ok tt
  end.

(** *** Creates *)

(** Modelled from the spec: create of a User: validation, then uniqueness of
    username and email. *)
Definition create_user (now : datetime) (s : Store) (c : UserCreate.t)
  : Store * Result User.t :=
  transaction s
    (c <- model_validate UserCreate.errors c ;;
     let r := User_of (next_id (users s)) now c in
     unique User.unique_columns r (users s) ;;
     Ok (with_users s (users s ++ [r]), r)).

(** Modelled from the spec: create of a RedditPost: validation, uniqueness
    of reddit_id, the reference to the user. *)
Definition create_reddit_post (now : datetime) (s : Store)
  (c : RedditPostCreate.t) : Store * Result RedditPost.t :=
  transaction s
    (c <- model_validate RedditPostCreate.errors c ;;
     let r := RedditPost_of (next_id (reddit_posts s)) now c in
     unique RedditPost.unique_columns r (reddit_posts s) ;;
     foreign_key "user_id" User.id (RedditPost.user_id r) (users s) ;;
     Ok (with_reddit_posts s (reddit_posts s ++ [r]), r)).

(** Modelled from the spec: create of a BackgroundVideo: validation, the
    reference to the user. *)
Definition create_background_video (now : datetime) (s : Store)
  (c : BackgroundVideoCreate.t) : Store * Result BackgroundVideo.t :=
  transaction s
    (c <- model_validate BackgroundVideoCreate.errors c ;;
     let r := BackgroundVideo_of (next_id (background_videos s)) now c in
     foreign_key "user_id" User.id (BackgroundVideo.user_id r) (users s) ;;
     Ok (with_background_videos s (background_videos s ++ [r]), r)).

(** Modelled from the spec: create of a TTSConfiguration: validation, the
    reference to the user. *)
Definition create_tts_configuration (now : datetime) (s : Store)
  (c : TTSConfigurationCreate.t) : Store * Result TTSConfiguration.t :=
  transaction s
    (c <- model_validate TTSConfigurationCreate.errors c ;;
     let r := TTSConfiguration_of (next_id (tts_configurations s)) now c in
     foreign_key "user_id" User.id (TTSConfiguration.user_id r) (users s) ;;
     Ok (with_tts_configurations s (tts_configurations s ++ [r]), r)).

(** Modelled from the spec: create of a SubtitleStyle: validation, the
    reference to the user. *)
Definition create_subtitle_style (now : datetime) (s : Store)
  (c : SubtitleStyleCreate.t) : Store * Result SubtitleStyle.t :=
  transaction s
    (c <- model_validate SubtitleStyleCreate.errors c ;;
     let r := SubtitleStyle_of (next_id (subtitle_styles s)) now c in
     foreign_key "user_id" User.id (SubtitleStyle.user_id r) (users s) ;;
     Ok (with_subtitle_styles s (subtitle_styles s ++ [r]), r)).

(** Modelled from the spec: create of a VideoGenerationJob: validation, the
    five references. *)
Definition create_video_generation_job (now : datetime) (s : Store)
  (c : VideoGenerationJobCreate.t) : Store * Result VideoGenerationJob.t :=
  transaction s
    (c <- model_validate VideoGenerationJobCreate.errors c ;;
     let r := VideoGenerationJob_of (next_id (video_generation_jobs s)) now c in
     foreign_key "user_id" User.id (VideoGenerationJob.user_id r) (users s) ;;
     foreign_key "reddit_post_id" RedditPost.id
       (VideoGenerationJob.reddit_post_id r) (reddit_posts s) ;;
     foreign_key "background_video_id" BackgroundVideo.id
       (VideoGenerationJob.background_video_id r) (background_videos s) ;;
     foreign_key "tts_config_id" TTSConfiguration.id
       (VideoGenerationJob.tts_config_id r) (tts_configurations s) ;;
     foreign_key "subtitle_style_id" SubtitleStyle.id
       (VideoGenerationJob.subtitle_style_id r) (subtitle_styles s) ;;
     Ok (with_video_generation_jobs s (video_generation_jobs s ++ [r]), r)).

(** Modelled from the spec: create of a JobProgressUpdate: validation, the
    reference to the job. *)
Definition create_job_progress_update (now : datetime) (s : Store)
  (c : JobProgressUpdateCreate.t) : Store * Result JobProgressUpdate.t :=
  transaction s
    (c <- model_validate JobProgressUpdateCreate.errors c ;;
     let r := JobProgressUpdate_of (next_id (job_progress_updates s)) now c in
     foreign_key "video_job_id" VideoGenerationJob.id
       (JobProgressUpdate.video_job_id r) (video_generation_jobs s) ;;
     Ok (with_job_progress_updates s (job_progress_updates s ++ [r]), r)).

(** *** Updates *)

(** Modelled from the spec: update of a User: the payload is validated and
    the row of the key is looked up, uniqueness is checked against the other
    rows, then the given fields are written. *)
Definition update_user (s : Store) (k : Z) (u : UserUpdate.t)
  : Store * Result User.t :=
  transaction s
    (u <- model_validate UserUpdate.errors u ;;
     r <- get "users" User.id k (users s) ;;
     let r' := User_update u r in
     unique User.unique_columns r'
       (filter (fun o => negb (has_id User.id k o)) (users s)) ;;
     Ok (with_users s (modify User.id k (User_update u) (users s)), r')).

(** Modelled from the spec: update of a BackgroundVideo: the payload is
    validated and the row of the key is looked up, then the given fields are
    written. *)
Definition update_background_video (s : Store) (k : Z)
  (u : BackgroundVideoUpdate.t) : Store * Result BackgroundVideo.t :=
  transaction s
    (u <- model_validate BackgroundVideoUpdate.errors u ;;
     r <- get "background_videos" BackgroundVideo.id k (background_videos s) ;;
     let r' := BackgroundVideo_update u r in
     Ok (with_background_videos s
           (modify BackgroundVideo.id k (BackgroundVideo_update u)
              (background_videos s)), r')).

(** Modelled from the spec: update of a TTSConfiguration: the payload is
    validated and the row of the key is looked up, then the given fields are
    written. *)
Definition update_tts_configuration (s : Store) (k : Z)
  (u : TTSConfigurationUpdate.t) : Store * Result TTSConfiguration.t :=
  transaction s
    (u <- model_validate TTSConfigurationUpdate.errors u ;;
     r <- get "tts_configurations" TTSConfiguration.id k
            (tts_configurations s) ;;
     let r' := TTSConfiguration_update u r in
     Ok (with_tts_configurations s
           (modify TTSConfiguration.id k (TTSConfiguration_update u)
              (tts_configurations s)), r')).

(** Modelled from the spec: update of a SubtitleStyle: the payload is
    validated and the row of the key is looked up, then the given fields are
    written. *)
Definition update_subtitle_style (s : Store) (k : Z)
  (u : SubtitleStyleUpdate.t) : Store * Result SubtitleStyle.t :=
  transaction s
    (u <- model_validate SubtitleStyleUpdate.errors u ;;
     r <- get "subtitle_styles" SubtitleStyle.id k (subtitle_styles s) ;;
     let r' := SubtitleStyle_update u r in
     Ok (with_subtitle_styles s
           (modify SubtitleStyle.id k (SubtitleStyle_update u)
              (subtitle_styles s)), r')).

(** Modelled from the spec: update of a VideoGenerationJob: the payload is
    validated and the row of the key is looked up, then the given fields are
    written. *)
Definition update_video_generation_job (s : Store) (k : Z)
  (u : VideoGenerationJobUpdate.t) : Store * Result VideoGenerationJob.t :=
  transaction s
    (u <- model_validate VideoGenerationJobUpdate.errors u ;;
     r <- get "video_generation_jobs" VideoGenerationJob.id k
            (video_generation_jobs s) ;;
     let r' := VideoGenerationJob_update u r in
     Ok (with_video_generation_jobs s
           (modify VideoGenerationJob.id k (VideoGenerationJob_update u)
              (video_generation_jobs s)), r')).

(** *** Reachable states *)

(** Modelled from the spec: the create and update operations the store
    accepts, one per Create and Update schema of the source. *)
Inductive Operation :=
| CreateUser (now : datetime) (c : UserCreate.t)
| UpdateUser (k : Z) (u : UserUpdate.t)
| CreateRedditPost (now : datetime) (c : RedditPostCreate.t)
| CreateBackgroundVideo (now : datetime) (c : BackgroundVideoCreate.t)
| UpdateBackgroundVideo (k : Z) (u : BackgroundVideoUpdate.t)
| CreateTTSConfiguration (now : datetime) (c : TTSConfigurationCreate.t)
| UpdateTTSConfiguration (k : Z) (u : TTSConfigurationUpdate.t)
| CreateSubtitleStyle (now : datetime) (c : SubtitleStyleCreate.t)
| UpdateSubtitleStyle (k : Z) (u : SubtitleStyleUpdate.t)
| CreateVideoGenerationJob (now : datetime) (c : VideoGenerationJobCreate.t)
| UpdateVideoGenerationJob (k : Z) (u : VideoGenerationJobUpdate.t)
| CreateJobProgressUpdate (now : datetime) (c : JobProgressUpdateCreate.t).

(** Modelled from the spec: the store after an operation; a failed operation
    leaves it as it was. *)
Definition run (s : Store) (op : Operation) : Store :=
  match op with
  | CreateUser now c => fst (create_user now s c)
  | UpdateUser k u => fst (update_user s k u)
  | CreateRedditPost now c => fst (create_reddit_post now s c)
  | CreateBackgroundVideo now c => fst (create_background_video now s c)
  | UpdateBackgroundVideo k u => fst (update_background_video s k u)
  | CreateTTSConfiguration now c => fst (create_tts_configuration now s c)
  | UpdateTTSConfiguration k u => fst (update_tts_configuration s k u)
  | CreateSubtitleStyle now c => fst (create_subtitle_style now s c)
  | UpdateSubtitleStyle k u => fst (update_subtitle_style s k u)
  | CreateVideoGenerationJob now c => fst (create_video_generation_job now s c)
  | UpdateVideoGenerationJob k u => fst (update_video_generation_job s k u)
  | CreateJobProgressUpdate now c => fst (create_job_progress_update now s c)
  end.

(** Modelled from the spec: the state the store reaches from the empty store
    by a sequence of operations, failed ones included. *)
Definition run_all (ops : list Operation) : Store :=
  fold_left run ops empty_store.

(** ** Predicates of the statements *)

(** A Decimal lies in the closed interval from [a] to [b]. *)
Definition within (a b : Q) (d : Decimal) : Prop :=
  exists q, Decimal_value d = Some q /\ (a <= q)%Q /\ (q <= b)%Q.

(** A Decimal is finite and has at most [p] decimal places: from the
    place after the [p]-th on, the digits of its coefficient are zero. *)
Definition at_most_places (p : Z) (d : Decimal) : Prop :=
  match d with
  | DFinite c e => 0 <= e + p \/ (10 ^ (- (e + p)) | c)
  | _ => False
  end.

(** [x] is an instance of the schema with these [errors]: its
    construction has validated every field. *)
Definition instance {A : Type} (errors : A -> list string) (x : A) : Prop :=
  errors x = [].

(** Validation fails with a [ValidationError] that names [field]. *)
Definition rejects {A : Type} (errors : A -> list string) (x : A)
  (field : string) : Prop :=
  exists fs, model_validate errors x = Err (ValidationError fs) /\ In field fs.

(** ** Sample payloads *)

Definition tts0 : TTSConfigurationCreate.t :=
  {| TTSConfigurationCreate.name := "narrator";
     TTSConfigurationCreate.provider := OPENAI;
     TTSConfigurationCreate.voice_id := "alloy";
     TTSConfigurationCreate.voice_name := "Alloy";
     TTSConfigurationCreate.speed := DFinite 10 (-1);
     TTSConfigurationCreate.pitch := DFinite 10 (-1);
     TTSConfigurationCreate.volume := DFinite 10 (-1);
     TTSConfigurationCreate.settings := [];
     TTSConfigurationCreate.is_default := false;
     TTSConfigurationCreate.user_id := 1 |}.

(** [tts0] with [speed=Decimal("1.234")]. *)
Definition tts_1_234 : TTSConfigurationCreate.t :=
  {| TTSConfigurationCreate.name := "narrator";
     TTSConfigurationCreate.provider := OPENAI;
     TTSConfigurationCreate.voice_id := "alloy";
     TTSConfigurationCreate.voice_name := "Alloy";
     TTSConfigurationCreate.speed := DFinite 1234 (-3);
     TTSConfigurationCreate.pitch := DFinite 10 (-1);
     TTSConfigurationCreate.volume := DFinite 10 (-1);
     TTSConfigurationCreate.settings := [];
     TTSConfigurationCreate.is_default := false;
     TTSConfigurationCreate.user_id := 1 |}.

Definition user0 : UserCreate.t :=
  {| UserCreate.username := "alice";
     UserCreate.email := "alice@example.org";
     UserCreate.reddit_client_id := None;
     UserCreate.reddit_client_secret := None;
     UserCreate.tts_api_key := None |}.

(** Another user under the same email. *)
Definition user_same_email : UserCreate.t :=
  {| UserCreate.username := "bob";
     UserCreate.email := "alice@example.org";
     UserCreate.reddit_client_id := None;
     UserCreate.reddit_client_secret := None;
     UserCreate.tts_api_key := None |}.

Definition post0 : RedditPostCreate.t :=
  {| RedditPostCreate.reddit_id := "t3_abc";
     RedditPostCreate.subreddit := "AskReddit";
     RedditPostCreate.title := "A question";
     RedditPostCreate.content := "Some text";
     RedditPostCreate.author := "carol";
     RedditPostCreate.score := 12;
     RedditPostCreate.num_comments := 3;
     RedditPostCreate.created_utc := 1000;
     RedditPostCreate.url := "https://example.org/abc";
     RedditPostCreate.permalink := "/r/AskReddit/abc";
     RedditPostCreate.word_count := 2;
     RedditPostCreate.estimated_duration := DFinite 150 (-2);
     RedditPostCreate.user_id := 1 |}.

(** A post with [word_count=-5] and
    [estimated_duration=Decimal("-1.50")]. *)
Definition post_negative : RedditPostCreate.t :=
  {| RedditPostCreate.reddit_id := "t3_neg";
     RedditPostCreate.subreddit := "AskReddit";
     RedditPostCreate.title := "A question";
     RedditPostCreate.content := "Some text";
     RedditPostCreate.author := "carol";
     RedditPostCreate.score := 12;
     RedditPostCreate.num_comments := 3;
     RedditPostCreate.created_utc := 1000;
     RedditPostCreate.url := "https://example.org/neg";
     RedditPostCreate.permalink := "/r/AskReddit/neg";
     RedditPostCreate.word_count := -5;
     RedditPostCreate.estimated_duration := DFinite (-150) (-2);
     RedditPostCreate.user_id := 1 |}.

Definition video0 : BackgroundVideoCreate.t :=
  {| BackgroundVideoCreate.filename := "clip.mp4";
     BackgroundVideoCreate.original_filename := "gameplay.mp4";
     BackgroundVideoCreate.file_path := "/videos/clip.mp4";
     BackgroundVideoCreate.file_size := 1048576;
     BackgroundVideoCreate.duration := DFinite 6000 (-2);
     BackgroundVideoCreate.width := 1080;
     BackgroundVideoCreate.height := 1920;
     BackgroundVideoCreate.fps := DFinite 30 0;
     BackgroundVideoCreate.format := MP4;
     BackgroundVideoCreate.description := "";
     BackgroundVideoCreate.tags := [];
     BackgroundVideoCreate.user_id := 1 |}.

(** A video with [duration=Decimal("0")], [width=-1], [height=0] and
    [fps=Decimal("-30")]. *)
Definition video_nonpositive : BackgroundVideoCreate.t :=
  {| BackgroundVideoCreate.filename := "clip.mp4";
     BackgroundVideoCreate.original_filename := "gameplay.mp4";
     BackgroundVideoCreate.file_path := "/videos/clip.mp4";
     BackgroundVideoCreate.file_size := 1048576;
     BackgroundVideoCreate.duration := DFinite 0 0;
     BackgroundVideoCreate.width := -1;
     BackgroundVideoCreate.height := 0;
     BackgroundVideoCreate.fps := DFinite (-30) 0;
     BackgroundVideoCreate.format := MP4;
     BackgroundVideoCreate.description := "";
     BackgroundVideoCreate.tags := [];
     BackgroundVideoCreate.user_id := 1 |}.

Definition style0 : SubtitleStyleCreate.t :=
  {| SubtitleStyleCreate.name := "plain";
     SubtitleStyleCreate.font_family := "Arial";
     SubtitleStyleCreate.font_size := 24;
     SubtitleStyleCreate.font_weight := "bold";
     SubtitleStyleCreate.font_color := "#FFFFFF";
     SubtitleStyleCreate.background_color := None;
     SubtitleStyleCreate.background_opacity := DFinite 8 (-1);
     SubtitleStyleCreate.outline_color := "#000000";
     SubtitleStyleCreate.outline_width := 2;
     SubtitleStyleCreate.position_x := DFinite 5 (-1);
     SubtitleStyleCreate.position_y := DFinite 8 (-1);
     SubtitleStyleCreate.alignment := "center";
     SubtitleStyleCreate.fade_in_duration := DFinite 5 (-1);
     SubtitleStyleCreate.fade_out_duration := DFinite 5 (-1);
     SubtitleStyleCreate.settings := [];
     SubtitleStyleCreate.is_default := false;
     SubtitleStyleCreate.user_id := 1 |}.

Definition job0 : VideoGenerationJobCreate.t :=
  {| VideoGenerationJobCreate.job_name := "first short";
     VideoGenerationJobCreate.target_duration := DFinite 4500 (-2);
     VideoGenerationJobCreate.output_width := 1080;
     VideoGenerationJobCreate.output_height := 1920;
     VideoGenerationJobCreate.output_fps := 30;
     VideoGenerationJobCreate.output_format := MP4;
     VideoGenerationJobCreate.processing_settings := [];
     VideoGenerationJobCreate.user_id := 1;
     VideoGenerationJobCreate.reddit_post_id := 1;
     VideoGenerationJobCreate.background_video_id := 1;
     VideoGenerationJobCreate.tts_config_id := 1;
     VideoGenerationJobCreate.subtitle_style_id := 1 |}.

(** An update that gives a status and, when asked, a progress. *)
Definition job_update (st : option JobStatus) (progress : option Decimal)
  : VideoGenerationJobUpdate.t :=
  {| VideoGenerationJobUpdate.job_name := None;
     VideoGenerationJobUpdate.status := st;
     VideoGenerationJobUpdate.progress_percentage := progress;
     VideoGenerationJobUpdate.current_step := None;
     VideoGenerationJobUpdate.estimated_completion := None;
     VideoGenerationJobUpdate.output_filename := None;
     VideoGenerationJobUpdate.output_file_path := None;
     VideoGenerationJobUpdate.output_file_size := None;
     VideoGenerationJobUpdate.error_message := None |}.

Definition progress_entry (progress : Decimal) (step : string)
  : JobProgressUpdateCreate.t :=
  {| JobProgressUpdateCreate.progress_percentage := progress;
     JobProgressUpdateCreate.step_name := step;
     JobProgressUpdateCreate.step_description := "";
     JobProgressUpdateCreate.update_metadata := [];
     JobProgressUpdateCreate.video_job_id := 1 |}.

(** One user with a post, a video, a voice, a style and a pending job. *)
Definition setup : list Operation :=
  [CreateUser 10 user0; CreateRedditPost 20 post0;
   CreateBackgroundVideo 30 video0; CreateTTSConfiguration 40 tts0;
   CreateSubtitleStyle 50 style0; CreateVideoGenerationJob 60 job0].

Definition store_pending : Store := run_all setup.

(** The columns of a BackgroundVideo other than id, description, tags
    and updated_at are the same in [r] and [r']. *)
Definition same_but_description_and_tags (r r' : BackgroundVideo.t) : Prop :=
  BackgroundVideo.filename r' = BackgroundVideo.filename r
  /\ BackgroundVideo.original_filename r'
     = BackgroundVideo.original_filename r
  /\ BackgroundVideo.file_path r' = BackgroundVideo.file_path r
  /\ BackgroundVideo.file_size r' = BackgroundVideo.file_size r
  /\ BackgroundVideo.duration r' = BackgroundVideo.duration r
  /\ BackgroundVideo.width r' = BackgroundVideo.width r
  /\ BackgroundVideo.height r' = BackgroundVideo.height r
  /\ BackgroundVideo.fps r' = BackgroundVideo.fps r
  /\ BackgroundVideo.format r' = BackgroundVideo.format r
  /\ BackgroundVideo.user_id r' = BackgroundVideo.user_id r
  /\ BackgroundVideo.created_at r' = BackgroundVideo.created_at r.

(** ** Declared defaults

    A field declared with [default=...] may be left out of a payload and
    then takes the default. The payloads below give the required fields
    only. *)

Definition UserCreate_with_defaults (username email : string) : UserCreate.t :=
  {| UserCreate.username := username;
     UserCreate.email := email;
     UserCreate.reddit_client_id := None;
     UserCreate.reddit_client_secret := None;
     UserCreate.tts_api_key := None |}.

Definition RedditPostCreate_with_defaults
  (reddit_id subreddit title author : string) (created_utc : datetime)
  (url permalink : string) (user_id : Z) : RedditPostCreate.t :=
  {| RedditPostCreate.reddit_id := reddit_id;
     RedditPostCreate.subreddit := subreddit;
     RedditPostCreate.title := title;
     RedditPostCreate.content := "";
     RedditPostCreate.author := author;
     RedditPostCreate.score := 0;
     RedditPostCreate.num_comments := 0;
     RedditPostCreate.created_utc := created_utc;
     RedditPostCreate.url := url;
     RedditPostCreate.permalink := permalink;
     RedditPostCreate.word_count := 0;
     RedditPostCreate.estimated_duration := DFinite 0 0;
     RedditPostCreate.user_id := user_id |}.

Definition BackgroundVideoCreate_with_defaults
  (filename original_filename file_path : string) (file_size : Z)
  (duration : Decimal) (width height : Z) (fps : Decimal) (user_id : Z)
  : BackgroundVideoCreate.t :=
  {| BackgroundVideoCreate.filename := filename;
     BackgroundVideoCreate.original_filename := original_filename;
     BackgroundVideoCreate.file_path := file_path;
     BackgroundVideoCreate.file_size := file_size;
     BackgroundVideoCreate.duration := duration;
     BackgroundVideoCreate.width := width;
     BackgroundVideoCreate.height := height;
     BackgroundVideoCreate.fps := fps;
     BackgroundVideoCreate.format := MP4;
     BackgroundVideoCreate.description := "";
     BackgroundVideoCreate.tags := [];
     BackgroundVideoCreate.user_id := user_id |}.

Definition TTSConfigurationCreate_with_defaults
  (name voice_id voice_name : string) (user_id : Z)
  : TTSConfigurationCreate.t :=
  {| TTSConfigurationCreate.name := name;
     TTSConfigurationCreate.provider := OPENAI;
     TTSConfigurationCreate.voice_id := voice_id;
     TTSConfigurationCreate.voice_name := voice_name;
     TTSConfigurationCreate.speed := DFinite 10 (-1);
     TTSConfigurationCreate.pitch := DFinite 10 (-1);
     TTSConfigurationCreate.volume := DFinite 10 (-1);
     TTSConfigurationCreate.settings := [];
     TTSConfigurationCreate.is_default := false;
     TTSConfigurationCreate.user_id := user_id |}.

Definition SubtitleStyleCreate_with_defaults (name : string) (user_id : Z)
  : SubtitleStyleCreate.t :=
  {| SubtitleStyleCreate.name := name;
     SubtitleStyleCreate.font_family := "Arial";
     SubtitleStyleCreate.font_size := 24;
     SubtitleStyleCreate.font_weight := "bold";
     SubtitleStyleCreate.font_color := "#FFFFFF";
     SubtitleStyleCreate.background_color := None;
     SubtitleStyleCreate.background_opacity := DFinite 8 (-1);
     SubtitleStyleCreate.outline_color := "#000000";
     SubtitleStyleCreate.outline_width := 2;
     SubtitleStyleCreate.position_x := DFinite 5 (-1);
     SubtitleStyleCreate.position_y := DFinite 8 (-1);
     SubtitleStyleCreate.alignment := "center";
     SubtitleStyleCreate.fade_in_duration := DFinite 5 (-1);
     SubtitleStyleCreate.fade_out_duration := DFinite 5 (-1);
     SubtitleStyleCreate.settings := [];
     SubtitleStyleCreate.is_default := false;
     SubtitleStyleCreate.user_id := user_id |}.

Definition VideoGenerationJobCreate_with_defaults (job_name : string)
  (target_duration : Decimal)
  (user_id reddit_post_id background_video_id tts_config_id
     subtitle_style_id : Z) : VideoGenerationJobCreate.t :=
  {| VideoGenerationJobCreate.job_name := job_name;
     VideoGenerationJobCreate.target_duration := target_duration;
     VideoGenerationJobCreate.output_width := 1080;
     VideoGenerationJobCreate.output_height := 1920;
     VideoGenerationJobCreate.output_fps := 30;
     VideoGenerationJobCreate.output_format := MP4;
     VideoGenerationJobCreate.processing_settings := [];
     VideoGenerationJobCreate.user_id := user_id;
     VideoGenerationJobCreate.reddit_post_id := reddit_post_id;
     VideoGenerationJobCreate.background_video_id := background_video_id;
     VideoGenerationJobCreate.tts_config_id := tts_config_id;
     VideoGenerationJobCreate.subtitle_style_id := subtitle_style_id |}.

Definition JobProgressUpdateCreate_with_defaults
  (progress_percentage : Decimal) (step_name : string) (video_job_id : Z)
  : JobProgressUpdateCreate.t :=
  {| JobProgressUpdateCreate.progress_percentage := progress_percentage;
     JobProgressUpdateCreate.step_name := step_name;
     JobProgressUpdateCreate.step_description := "";
     JobProgressUpdateCreate.update_metadata := [];
     JobProgressUpdateCreate.video_job_id := video_job_id |}.

(** A Decimal is finite and at least [a]. *)
Definition at_least (a : Q) (d : Decimal) : Prop :=
  exists q, Decimal_value d = Some q /\ (a <= q)%Q.

(** A voice update that raises the speed to 2.5 and renames the voice. *)
Definition tts_update0 : TTSConfigurationUpdate.t :=
  {| TTSConfigurationUpdate.name := Some "fast narrator";
     TTSConfigurationUpdate.voice_id := None;
     TTSConfigurationUpdate.voice_name := None;
     TTSConfigurationUpdate.speed := Some (DFinite 25 (-1));
     TTSConfigurationUpdate.pitch := None;
     TTSConfigurationUpdate.volume := None;
     TTSConfigurationUpdate.settings := None;
     TTSConfigurationUpdate.is_default := Some true |}.

(** Some row of the table has primary key [k]. *)
Definition refers {A : Type} (id : A -> option Z) (rows : list A) (k : Z)
  : Prop :=
  exists r, In r rows /\ id r = Some k.

(** ** What a successful operation does

    [step s s']: some operation succeeds in [s] and leaves [s']. Each
    rule carries what the operation has checked. *)
Inductive step (s : Store) : Store -> Prop :=
| step_create_user (now : datetime) (c : UserCreate.t) :
    instance UserCreate.errors c ->
    unique User.unique_columns (User_of (next_id (users s)) now c) (users s)
    = Ok tt ->
    step s (with_users s (users s ++ [User_of (next_id (users s)) now c]))
| step_update_user (k : Z) (u : UserUpdate.t) (r : User.t) :
    instance UserUpdate.errors u ->
    find (has_id User.id k) (users s) = Some r ->
    unique User.unique_columns (User_update u r)
      (filter (fun o => negb (has_id User.id k o)) (users s))
    = Ok tt ->
    step s (with_users s (modify User.id k (User_update u) (users s)))
| step_create_reddit_post (now : datetime) (c : RedditPostCreate.t) :
    instance RedditPostCreate.errors c ->
    unique RedditPost.unique_columns
      (RedditPost_of (next_id (reddit_posts s)) now c) (reddit_posts s)
    = Ok tt ->
    refers User.id (users s) (RedditPostCreate.user_id c) ->
    step s
      (with_reddit_posts s
         (reddit_posts s ++ [RedditPost_of (next_id (reddit_posts s)) now c]))
| step_create_background_video (now : datetime)
    (c : BackgroundVideoCreate.t) :
    instance BackgroundVideoCreate.errors c ->
    refers User.id (users s) (BackgroundVideoCreate.user_id c) ->
    step s
      (with_background_videos s
         (background_videos s
          ++ [BackgroundVideo_of (next_id (background_videos s)) now c]))
| step_update_background_video (k : Z) (u : BackgroundVideoUpdate.t) :
    instance BackgroundVideoUpdate.errors u ->
    step s
      (with_background_videos s
         (modify BackgroundVideo.id k (BackgroundVideo_update u)
            (background_videos s)))
| step_create_tts_configuration (now : datetime)
    (c : TTSConfigurationCreate.t) :
    instance TTSConfigurationCreate.errors c ->
    refers User.id (users s) (TTSConfigurationCreate.user_id c) ->
    step s
      (with_tts_configurations s
         (tts_configurations s
          ++ [TTSConfiguration_of (next_id (tts_configurations s)) now c]))
| step_update_tts_configuration (k : Z) (u : TTSConfigurationUpdate.t) :
    instance TTSConfigurationUpdate.errors u ->
    step s
      (with_tts_configurations s
         (modify TTSConfiguration.id k (TTSConfiguration_update u)
            (tts_configurations s)))
| step_create_subtitle_style (now : datetime) (c : SubtitleStyleCreate.t) :
    instance SubtitleStyleCreate.errors c ->
    refers User.id (users s) (SubtitleStyleCreate.user_id c) ->
    step s
      (with_subtitle_styles s
         (subtitle_styles s
          ++ [SubtitleStyle_of (next_id (subtitle_styles s)) now c]))
| step_update_subtitle_style (k : Z) (u : SubtitleStyleUpdate.t) :
    instance SubtitleStyleUpdate.errors u ->
    step s
      (with_subtitle_styles s
         (modify SubtitleStyle.id k (SubtitleStyle_update u)
            (subtitle_styles s)))
| step_create_video_generation_job (now : datetime)
    (c : VideoGenerationJobCreate.t) :
    instance VideoGenerationJobCreate.errors c ->
    refers User.id (users s) (VideoGenerationJobCreate.user_id c) ->
    refers RedditPost.id (reddit_posts s)
      (VideoGenerationJobCreate.reddit_post_id c) ->
    refers BackgroundVideo.id (background_videos s)
      (VideoGenerationJobCreate.background_video_id c) ->
    refers TTSConfiguration.id (tts_configurations s)
      (VideoGenerationJobCreate.tts_config_id c) ->
    refers SubtitleStyle.id (subtitle_styles s)
      (VideoGenerationJobCreate.subtitle_style_id c) ->
    step s
      (with_video_generation_jobs s
         (video_generation_jobs s
          ++ [VideoGenerationJob_of (next_id (video_generation_jobs s))
                now c]))
| step_update_video_generation_job (k : Z) (u : VideoGenerationJobUpdate.t) :
    instance VideoGenerationJobUpdate.errors u ->
    step s
      (with_video_generation_jobs s
         (modify VideoGenerationJob.id k (VideoGenerationJob_update u)
            (video_generation_jobs s)))
| step_create_job_progress_update (now : datetime)
    (c : JobProgressUpdateCreate.t) :
    instance JobProgressUpdateCreate.errors c ->
    refers VideoGenerationJob.id (video_generation_jobs s)
      (JobProgressUpdateCreate.video_job_id c) ->
    step s
      (with_job_progress_updates s
         (job_progress_updates s
          ++ [JobProgressUpdate_of (next_id (job_progress_updates s))
                now c])).

(** The primary keys of a table count up from 1 in insertion order. *)
Definition keyed {A : Type} (id : A -> option Z) (rows : list A) : Prop :=
  map id rows = map (fun i => Some (Z.of_nat i)) (seq 1 (List.length rows)).

Definition primary_keys_hold (s : Store) : Prop :=
  keyed User.id (users s)
  /\ keyed RedditPost.id (reddit_posts s)
  /\ keyed BackgroundVideo.id (background_videos s)
  /\ keyed TTSConfiguration.id (tts_configurations s)
  /\ keyed SubtitleStyle.id (subtitle_styles s)
  /\ keyed VideoGenerationJob.id (video_generation_jobs s)
  /\ keyed JobProgressUpdate.id (job_progress_updates s).

(** No two rows agree on a column declared [unique=True]. *)
Definition unique_columns_hold (s : Store) : Prop :=
  NoDup (map User.username (users s))
  /\ NoDup (map User.email (users s))
  /\ NoDup (map RedditPost.reddit_id (reddit_posts s)).

(** Every column declared with [foreign_key=...] names a stored row of
    the table it points to. *)
Definition foreign_keys_hold (s : Store) : Prop :=
  Forall (fun r => refers User.id (users s) (RedditPost.user_id r))
    (reddit_posts s)
  /\ Forall (fun r => refers User.id (users s) (BackgroundVideo.user_id r))
       (background_videos s)
  /\ Forall (fun r => refers User.id (users s) (TTSConfiguration.user_id r))
       (tts_configurations s)
  /\ Forall (fun r => refers User.id (users s) (SubtitleStyle.user_id r))
       (subtitle_styles s)
  /\ Forall
       (fun r =>
          refers User.id (users s) (VideoGenerationJob.user_id r)
          /\ refers RedditPost.id (reddit_posts s)
               (VideoGenerationJob.reddit_post_id r)
          /\ refers BackgroundVideo.id (background_videos s)
               (VideoGenerationJob.background_video_id r)
          /\ refers TTSConfiguration.id (tts_configurations s)
               (VideoGenerationJob.tts_config_id r)
          /\ refers SubtitleStyle.id (subtitle_styles s)
               (VideoGenerationJob.subtitle_style_id r))
       (video_generation_jobs s)
  /\ Forall
       (fun r =>
          refers VideoGenerationJob.id (video_generation_jobs s)
            (JobProgressUpdate.video_job_id r))
       (job_progress_updates s).

(** [l] begins with [prefix]. *)
Definition extends {A : Type} (prefix l : list A) : Prop :=
  exists rest, l = prefix ++ rest.

(** The columns of the updatable tables that their Update schema does
    not carry, timestamps of the last change apart. *)
Definition User_fixed (r : User.t) :=
  (User.id r, User.created_at r).

Definition BackgroundVideo_fixed (r : BackgroundVideo.t) :=
  (BackgroundVideo.id r, BackgroundVideo.filename r,
   BackgroundVideo.original_filename r, BackgroundVideo.file_path r,
   BackgroundVideo.file_size r, BackgroundVideo.duration r,
   BackgroundVideo.width r, BackgroundVideo.height r, BackgroundVideo.fps r,
   BackgroundVideo.format r, BackgroundVideo.user_id r,
   BackgroundVideo.created_at r).

Definition TTSConfiguration_fixed (r : TTSConfiguration.t) :=
  (TTSConfiguration.id r, TTSConfiguration.provider r,
   TTSConfiguration.user_id r, TTSConfiguration.created_at r).

Definition SubtitleStyle_fixed (r : SubtitleStyle.t) :=
  (SubtitleStyle.id r, SubtitleStyle.user_id r, SubtitleStyle.created_at r).

Definition VideoGenerationJob_fixed (r : VideoGenerationJob.t) :=
  (VideoGenerationJob.id r, VideoGenerationJob.target_duration r,
   VideoGenerationJob.output_width r, VideoGenerationJob.output_height r,
   VideoGenerationJob.output_fps r, VideoGenerationJob.output_format r,
   VideoGenerationJob.processing_settings r, VideoGenerationJob.user_id r,
   VideoGenerationJob.reddit_post_id r,
   VideoGenerationJob.background_video_id r,
   VideoGenerationJob.tts_config_id r,
   VideoGenerationJob.subtitle_style_id r, VideoGenerationJob.created_at r).

(** The rows of [s] are still in [s'], at the head of their tables, with
    their fixed columns as they were. *)
Definition fixed_columns_kept (s s' : Store) : Prop :=
  extends (map User_fixed (users s)) (map User_fixed (users s'))
  /\ extends (map BackgroundVideo_fixed (background_videos s))
       (map BackgroundVideo_fixed (background_videos s'))
  /\ extends (map TTSConfiguration_fixed (tts_configurations s))
       (map TTSConfiguration_fixed (tts_configurations s'))
  /\ extends (map SubtitleStyle_fixed (subtitle_styles s))
       (map SubtitleStyle_fixed (subtitle_styles s'))
  /\ extends (map VideoGenerationJob_fixed (video_generation_jobs s))
       (map VideoGenerationJob_fixed (video_generation_jobs s')).

(** * Properties *)

Lemma In_field_error (x name : string) (ok : bool) :
  In x (field_error name ok) <-> x = name /\ ok = false.
Proof.
  unfold field_error. destruct ok; simpl.
  - split; [tauto | intros [_ H]; discriminate H].
  - split.
    + intros [H | []]. auto.
    + intros [H _]. auto.
Qed.

Lemma field_error_nil (name : string) (ok : bool) :
  field_error name ok = [] <-> ok = true.
Proof.
  unfold field_error. destruct ok; split; intro H; auto; discriminate H.
Qed.

Lemma model_validate_Ok {A : Type} (errors : A -> list string) (x y : A) :
  model_validate errors x = Ok y <-> errors x = [] /\ y = x.
Proof.
  unfold model_validate. destruct (errors x) as [| f fs]; split.
  - intro H. injection H as <-. auto.
  - intros [_ ->]. reflexivity.
  - intro H. discriminate H.
  - intros [H _]. discriminate H.
Qed.

Lemma rejects_iff {A : Type} (errors : A -> list string) (x : A)
  (field : string) :
  rejects errors x field <-> In field (errors x).
Proof.
  unfold rejects, model_validate. destruct (errors x) as [| f fs]; split.
  - intros (l & H & _). discriminate H.
  - intros [].
  - intros (l & H & Hin). injection H as <-. exact Hin.
  - intro Hin. eauto.
Qed.

Lemma places_ok_spec (p c e : Z) :
  places_ok p c e = true <-> at_most_places p (DFinite c e).
Proof.
  unfold places_ok, at_most_places.
  destruct (Z.leb_spec 0 (e + p)) as [Hle | Hlt].
  - tauto.
  - rewrite Z.eqb_eq, Z.mod_divide by (apply Z.pow_nonzero; lia).
    split; [auto | intros [H | H]; [lia | exact H]].
Qed.

Lemma decimal_ok_spec (p : Z) (a b : Q) (d : Decimal) :
  decimal_ok (Dec p (Some a) (Some b)) d = true
  <-> within a b d /\ at_most_places p d.
Proof.
  unfold within. destruct d as [c e | n |]; simpl.
  - rewrite !andb_true_iff, places_ok_spec, !Qle_bool_iff. simpl. split.
    + intros [[Hp Ha] Hb]. eauto.
    + intros [(q & Hq & Ha & Hb) Hp]. injection Hq as <-. auto.
  - split; [discriminate | intros [_ []]].
  - split; [discriminate | intros [_ []]].
Qed.

Lemma decimal_ok_ge_spec (p : Z) (a : Q) (d : Decimal) :
  decimal_ok (Dec p (Some a) None) d = true
  <-> (exists q, Decimal_value d = Some q /\ (a <= q)%Q) /\ at_most_places p d.
Proof.
  destruct d as [c e | n |]; simpl.
  - rewrite andb_true_r, andb_true_iff, places_ok_spec, Qle_bool_iff.
    simpl. split.
    + intros [Hp Ha]. eauto.
    + intros [(q & Hq & Ha) Hp]. injection Hq as <-. auto.
  - split; [discriminate | intros [_ []]].
  - split; [discriminate | intros [_ []]].
Qed.

Lemma decimal_ok_places_spec (p : Z) (d : Decimal) :
  decimal_ok (Dec p None None) d = true <-> at_most_places p d.
Proof.
  destruct d as [c e | n |]; simpl.
  - rewrite !andb_true_r. apply places_ok_spec.
  - split; [discriminate | intros []].
  - split; [discriminate | intros []].
Qed.

Lemma str_ok_spec (n : nat) (s : string) :
  str_ok (Str n) s = true <-> (characters s <= n)%nat.
Proof. unfold str_ok. simpl. apply Nat.leb_le. Qed.

Lemma characters_le_length (s : string) :
  (characters s <= String.length s)%nat.
Proof.
  induction s as [| a s IH]; simpl.
  - lia.
  - destruct (continuation a); lia.
Qed.

(** The three bytes E6 97 A5 encode one character; "alice" has one
    character a byte. *)
Example characters_examples :
  characters
    (String (ascii_of_nat 230)
       (String (ascii_of_nat 151) (String (ascii_of_nat 165) EmptyString)))
  = 1%nat
  /\ characters "alice" = 5%nat.
Proof. split; reflexivity. Qed.

Lemma not_true_iff_false' (b : bool) (P : Prop) :
  (b = true <-> P) -> (b = false <-> ~ P).
Proof.
  intros H. destruct b; split; intro H'.
  - discriminate H'.
  - exfalso. apply H'. apply H. reflexivity.
  - intro HP. apply H in HP. discriminate HP.
  - reflexivity.
Qed.

(** C3 (as amended): a create or an update of a TTSConfiguration fails
    with a ValidationError on speed exactly when the value given is not
    a finite Decimal in the interval [0.1, 3.0] with at most two decimal
    places; an update that gives no speed is never rejected on it. *)
Theorem TTSConfiguration_speed_validation :
  (forall c : TTSConfigurationCreate.t,
      rejects TTSConfigurationCreate.errors c "speed"
      <-> ~ (within (1 # 10) (3 # 1) (TTSConfigurationCreate.speed c)
             /\ at_most_places 2 (TTSConfigurationCreate.speed c)))
  /\ (forall u : TTSConfigurationUpdate.t,
         rejects TTSConfigurationUpdate.errors u "speed"
         <-> exists d, TTSConfigurationUpdate.speed u = Some d
                       /\ ~ (within (1 # 10) (3 # 1) d
                             /\ at_most_places 2 d)).
Proof.
  split.
  - intro c. rewrite rejects_iff. unfold TTSConfigurationCreate.errors.
    rewrite !in_app_iff, !In_field_error.
    rewrite <- (not_true_iff_false' _ _ (decimal_ok_spec 2 _ _ _)).
    split.
    + intros [H | [H | [H | [H | [H | H]]]]];
        destruct H as [Hn Hv]; try discriminate Hn. exact Hv.
    + intro H. auto 8.
  - intro u. rewrite rejects_iff. unfold TTSConfigurationUpdate.errors.
    rewrite !in_app_iff, !In_field_error.
    split.
    + intros [H | [H | [H | [H | [H | H]]]]];
        destruct H as [Hn Hv]; try discriminate Hn.
      destruct (TTSConfigurationUpdate.speed u) as [d |]; [| discriminate Hv].
      exists d. split; [reflexivity |].
      apply (not_true_iff_false' _ _ (decimal_ok_spec 2 _ _ _)). exact Hv.
    + intros (d & -> & H).
      apply (not_true_iff_false' _ _ (decimal_ok_spec 2 _ _ _)) in H.
      simpl. auto 8.
Qed.

(** C3 (as stated) fails: 1.234 lies in [0.1, 3.0] and is rejected, for
    the field allows two decimal places. *)
Lemma speed_in_interval_rejected :
  within (1 # 10) (3 # 1) (TTSConfigurationCreate.speed tts_1_234)
  /\ rejects TTSConfigurationCreate.errors tts_1_234 "speed".
Proof.
  split.
  - eexists. split; [reflexivity |]. split; vm_compute; discriminate.
  - eexists. split; [reflexivity |]. simpl. auto.
Qed.

Lemma at_most_places_opp (p m e : Z) :
  at_most_places p (DFinite (- m) e) <-> at_most_places p (DFinite m e).
Proof. unfold at_most_places. rewrite Z.divide_opp_r. tauto. Qed.

(** C6 (as amended): validation of a BackgroundVideoCreate payload does
    not look at the sign of duration, width, height or fps. width and
    height are never the cause of a ValidationError; duration and fps
    are one exactly when the value is not a finite Decimal with at most
    two decimal places, and a value passes or fails together with its
    opposite. *)
Theorem BackgroundVideoCreate_sign_unchecked (c : BackgroundVideoCreate.t) :
  ~ rejects BackgroundVideoCreate.errors c "width"
  /\ ~ rejects BackgroundVideoCreate.errors c "height"
  /\ (rejects BackgroundVideoCreate.errors c "duration"
      <-> ~ at_most_places 2 (BackgroundVideoCreate.duration c))
  /\ (rejects BackgroundVideoCreate.errors c "fps"
      <-> ~ at_most_places 2 (BackgroundVideoCreate.fps c))
  /\ (forall m e,
         at_most_places 2 (DFinite (- m) e) <-> at_most_places 2 (DFinite m e)).
Proof.
  rewrite !rejects_iff. unfold BackgroundVideoCreate.errors.
  rewrite !in_app_iff, !In_field_error.
  rewrite <- !(not_true_iff_false' _ _ (decimal_ok_places_spec 2 _)).
  repeat apply conj.
  - intros [H | [H | [H | [H | [H | H]]]]];
      destruct H as [Hn _]; discriminate Hn.
  - intros [H | [H | [H | [H | [H | H]]]]];
      destruct H as [Hn _]; discriminate Hn.
  - intros [H | [H | [H | [H | [H | H]]]]];
      destruct H as [Hn Hv]; try discriminate Hn. exact Hv.
  - intro H. auto 8.
  - intros [H | [H | [H | [H | [H | H]]]]];
      destruct H as [Hn Hv]; try discriminate Hn. exact Hv.
  - intro H. auto 8.
  - intros m e. apply at_most_places_opp.
Qed.

(** C6 (as stated) fails: a payload with duration 0, width -1, height 0
    and fps -30 passes validation; no field of it raises a
    ValidationError. *)
Lemma nonpositive_video_validates :
  BackgroundVideoCreate.duration video_nonpositive = DFinite 0 0
  /\ BackgroundVideoCreate.width video_nonpositive = -1
  /\ BackgroundVideoCreate.height video_nonpositive = 0
  /\ BackgroundVideoCreate.fps video_nonpositive = DFinite (-30) 0
  /\ model_validate BackgroundVideoCreate.errors video_nonpositive
     = Ok video_nonpositive.
Proof. repeat split. Qed.

(** C7 (as amended): validation of a RedditPostCreate payload does not
    look at the sign of word_count or estimated_duration. word_count is
    never the cause of a ValidationError; estimated_duration is one
    exactly when the value is not a finite Decimal with at most two
    decimal places, and a value passes or fails together with its
    opposite. *)
Theorem RedditPostCreate_sign_unchecked (c : RedditPostCreate.t) :
  ~ rejects RedditPostCreate.errors c "word_count"
  /\ (rejects RedditPostCreate.errors c "estimated_duration"
      <-> ~ at_most_places 2 (RedditPostCreate.estimated_duration c))
  /\ (forall m e,
         at_most_places 2 (DFinite (- m) e) <-> at_most_places 2 (DFinite m e)).
Proof.
  rewrite !rejects_iff. unfold RedditPostCreate.errors.
  rewrite !in_app_iff, !In_field_error.
  rewrite <- !(not_true_iff_false' _ _ (decimal_ok_places_spec 2 _)).
  repeat apply conj.
  - intros [H | [H | [H | [H | [H | [H | H]]]]]];
      destruct H as [Hn _]; discriminate Hn.
  - intros [H | [H | [H | [H | [H | [H | H]]]]]];
      destruct H as [Hn Hv]; try discriminate Hn. exact Hv.
  - intro H. auto 9.
  - intros m e. apply at_most_places_opp.
Qed.

(** C7 (as stated) fails: a payload with word_count -5 and
    estimated_duration -1.50 passes validation; no field of it raises a
    ValidationError. *)
Lemma negative_post_validates :
  RedditPostCreate.word_count post_negative = -5
  /\ RedditPostCreate.estimated_duration post_negative = DFinite (-150) (-2)
  /\ model_validate RedditPostCreate.errors post_negative = Ok post_negative.
Proof. repeat split. Qed.

Lemma app_nil_iff {A : Type} (l l' : list A) :
  l ++ l' = [] <-> l = [] /\ l' = [].
Proof.
  split.
  - apply app_eq_nil.
  - intros [-> ->]. reflexivity.
Qed.

Lemma model_validate_cases {A : Type} (errors : A -> list string) (x : A) :
  (errors x = [] /\ model_validate errors x = Ok x)
  \/ (errors x <> []
      /\ model_validate errors x = Err (ValidationError (errors x))).
Proof.
  unfold model_validate. destruct (errors x) as [| f fs].
  - left. auto.
  - right. split; [discriminate | reflexivity].
Qed.

Lemma has_id_true {A : Type} (id : A -> option Z) (k : Z) (r : A) :
  has_id id k r = true <-> id r = Some k.
Proof.
  unfold has_id. destruct (id r) as [i |].
  - rewrite Z.eqb_eq. split; [intros -> | intros [= ->]]; reflexivity.
  - split; discriminate.
Qed.

Lemma foreign_key_cases {A : Type} (column : string) (id : A -> option Z)
  (k : Z) (rows : list A) :
  ((exists r, In r rows /\ id r = Some k)
   /\ foreign_key column id k rows = Ok tt)
  \/ (~ (exists r, In r rows /\ id r = Some k)
      /\ foreign_key column id k rows = Err (NotFoundError column)).
Proof.
  unfold foreign_key. destruct (existsb (has_id id k) rows) eqn:E.
  - left. split; [| reflexivity].
    apply existsb_exists in E. destruct E as (r & Hin & Hid).
    exists r. split; [exact Hin | apply has_id_true; exact Hid].
  - right. split; [| reflexivity].
    intros (r & Hin & Hid).
    assert (existsb (has_id id k) rows = true) as E'.
    { apply existsb_exists. exists r. split; [exact Hin |].
      apply has_id_true. exact Hid. }
    rewrite E in E'. discriminate E'.
Qed.

Lemma taken_spec {A : Type} (column : A -> string) (r : A) (others : list A) :
  taken column r others = true
  <-> exists o, In o others /\ column o = column r.
Proof.
  unfold taken. rewrite existsb_exists.
  split; intros (o & Hin & H); exists o; split; auto; apply String.eqb_eq;
    exact H.
Qed.

Lemma unique_reddit_id_cases (r : RedditPost.t) (rows : list RedditPost.t) :
  (~ (exists o, In o rows /\ RedditPost.reddit_id o = RedditPost.reddit_id r)
   /\ unique RedditPost.unique_columns r rows = Ok tt)
  \/ ((exists o, In o rows /\ RedditPost.reddit_id o = RedditPost.reddit_id r)
      /\ unique RedditPost.unique_columns r rows
         = Err (ConflictError "reddit_id")).
Proof.
  unfold unique. simpl.
  destruct (taken RedditPost.reddit_id r rows) eqn:E; simpl.
  - right. split; [apply taken_spec; exact E | reflexivity].
  - left. split; [| reflexivity].
    intro H. apply taken_spec in H. rewrite E in H. discriminate H.
Qed.

Lemma unique_user_cases (r : User.t) (rows : list User.t) :
  (~ (exists o, In o rows
                /\ (User.username o = User.username r
                    \/ User.email o = User.email r))
   /\ unique User.unique_columns r rows = Ok tt)
  \/ ((exists o, In o rows
                 /\ (User.username o = User.username r
                     \/ User.email o = User.email r))
      /\ exists column, In column ["username"; "email"]
                        /\ unique User.unique_columns r rows
                           = Err (ConflictError column)).
Proof.
  unfold unique. simpl.
  destruct (taken User.username r rows) eqn:E1; simpl.
  - right. apply taken_spec in E1. destruct E1 as (o & Hin & H).
    split; [exists o; auto | exists "username"; auto].
  - destruct (taken User.email r rows) eqn:E2; simpl.
    + right. apply taken_spec in E2. destruct E2 as (o & Hin & H).
      split; [exists o; auto | exists "email"; auto].
    + left. split; [| reflexivity].
      intros (o & Hin & [H | H]).
      * assert (taken User.username r rows = true) as T
          by (apply taken_spec; eauto).
        rewrite E1 in T. discriminate T.
      * assert (taken User.email r rows = true) as T
          by (apply taken_spec; eauto).
        rewrite E2 in T. discriminate T.
Qed.

(** C2: a create of a User under a username or an email that a stored
    user has, and a create of a RedditPost under a reddit_id that a
    stored post has, fail with ConflictError and leave the store as it
    was. The payloads are instances of their schemas. *)
Theorem duplicate_create_conflicts (now : datetime) (s : Store)
  (uc : UserCreate.t) (pc : RedditPostCreate.t) :
  (instance UserCreate.errors uc ->
   (exists u, In u (users s)
              /\ (User.username u = UserCreate.username uc
                  \/ User.email u = UserCreate.email uc)) ->
   exists column, In column ["username"; "email"]
                  /\ create_user now s uc = (s, Err (ConflictError column)))
  /\ (instance RedditPostCreate.errors pc ->
      (exists p, In p (reddit_posts s)
                 /\ RedditPost.reddit_id p = RedditPostCreate.reddit_id pc) ->
      create_reddit_post now s pc = (s, Err (ConflictError "reddit_id"))).
Proof.
  split; intros Hvalid Hdup.
  - unfold create_user, transaction, bind.
    destruct (model_validate_cases UserCreate.errors uc)
      as [[_ ->] | [E _]]; [| contradiction].
    cbv beta iota zeta.
    destruct (unique_user_cases (User_of (next_id (users s)) now uc) (users s))
      as [[U _] | [_ (column & Hc & ->)]].
    + contradiction.
    + exists column. auto.
  - unfold create_reddit_post, transaction, bind.
    destruct (model_validate_cases RedditPostCreate.errors pc)
      as [[_ ->] | [E _]]; [| contradiction].
    cbv beta iota zeta.
    destruct (unique_reddit_id_cases
                (RedditPost_of (next_id (reddit_posts s)) now pc)
                (reddit_posts s)) as [[U _] | [_ ->]].
    + contradiction.
    + reflexivity.
Qed.

Lemma duplicate_create_conflicts_witness :
  instance UserCreate.errors user_same_email
  /\ (exists u, In u (users store_pending)
                /\ (User.username u = UserCreate.username user_same_email
                    \/ User.email u = UserCreate.email user_same_email))
  /\ instance RedditPostCreate.errors post0
  /\ (exists p, In p (reddit_posts store_pending)
                /\ RedditPost.reddit_id p = RedditPostCreate.reddit_id post0)
  /\ (exists column,
         In column ["username"; "email"]
         /\ create_user 90 store_pending user_same_email
            = (store_pending, Err (ConflictError column)))
  /\ create_reddit_post 90 store_pending post0
     = (store_pending, Err (ConflictError "reddit_id")).
Proof.
  assert (instance UserCreate.errors user_same_email) as Hu by reflexivity.
  assert (exists u, In u (users store_pending)
                    /\ (User.username u = UserCreate.username user_same_email
                        \/ User.email u = UserCreate.email user_same_email))
    as Hdu.
  { exists (User_of 1 10 user0). split; [left | right]; reflexivity. }
  assert (instance RedditPostCreate.errors post0) as Hp by reflexivity.
  assert (exists p, In p (reddit_posts store_pending)
                    /\ RedditPost.reddit_id p
                       = RedditPostCreate.reddit_id post0) as Hdp.
  { exists (RedditPost_of 1 20 post0). split; [left |]; reflexivity. }
  destruct (duplicate_create_conflicts 90 store_pending user_same_email post0)
    as [Huser Hpost].
  repeat (split; [assumption |]).
  split; [apply Huser | apply Hpost]; assumption.
Defined.

(** ** The effect of an operation on the tables *)

Ltac operation_cases :=
  unfold transaction, bind;
  repeat match goal with
    | |- context [model_validate ?e ?x] =>
        destruct (model_validate_cases e x) as [[? ->] | [? ->]];
        cbv beta iota zeta
    | |- context [unique ?cs ?r ?rows] =>
        destruct (unique cs r rows) as [[] | ?]
    | |- context [foreign_key ?c ?id ?k ?rows] =>
        destruct (foreign_key c id k rows) as [[] | ?]
    | |- context [get ?t ?id ?k ?rows] =>
        destruct (get t id k rows)
    end;
  simpl.

(** An operation leaves the jobs as they are, or appends the job built
    from an instance of the Create schema, or modifies jobs by an
    instance of the Update schema. *)
Lemma run_video_generation_jobs (s : Store) (op : Operation) :
  video_generation_jobs (run s op) = video_generation_jobs s
  \/ (exists now c,
         instance VideoGenerationJobCreate.errors c
         /\ video_generation_jobs (run s op)
            = video_generation_jobs s
              ++ [VideoGenerationJob_of (next_id (video_generation_jobs s))
                    now c])
  \/ (exists k u,
         instance VideoGenerationJobUpdate.errors u
         /\ video_generation_jobs (run s op)
            = modify VideoGenerationJob.id k (VideoGenerationJob_update u)
                (video_generation_jobs s)).
Proof.
  destruct op; simpl.
  - unfold create_user. operation_cases; auto.
  - unfold update_user. operation_cases; auto.
  - unfold create_reddit_post. operation_cases; auto.
  - unfold create_background_video. operation_cases; auto.
  - unfold update_background_video. operation_cases; auto.
  - unfold create_tts_configuration. operation_cases; auto.
  - unfold update_tts_configuration. operation_cases; auto.
  - unfold create_subtitle_style. operation_cases; auto.
  - unfold update_subtitle_style. operation_cases; auto.
  - unfold create_video_generation_job. operation_cases; auto.
    right. left. exists now, c. auto.
  - unfold update_video_generation_job. operation_cases; auto.
    right. right. exists k, u. auto.
  - unfold create_job_progress_update. operation_cases; auto.
Qed.

(** An operation leaves the progress log as it is or appends the entry
    built from an instance of the Create schema. *)
Lemma run_job_progress_updates (s : Store) (op : Operation) :
  job_progress_updates (run s op) = job_progress_updates s
  \/ (exists now c,
         instance JobProgressUpdateCreate.errors c
         /\ job_progress_updates (run s op)
            = job_progress_updates s
              ++ [JobProgressUpdate_of (next_id (job_progress_updates s))
                    now c]).
Proof.
  destruct op; simpl.
  - unfold create_user. operation_cases; auto.
  - unfold update_user. operation_cases; auto.
  - unfold create_reddit_post. operation_cases; auto.
  - unfold create_background_video. operation_cases; auto.
  - unfold update_background_video. operation_cases; auto.
  - unfold create_tts_configuration. operation_cases; auto.
  - unfold update_tts_configuration. operation_cases; auto.
  - unfold create_subtitle_style. operation_cases; auto.
  - unfold update_subtitle_style. operation_cases; auto.
  - unfold create_video_generation_job. operation_cases; auto.
  - unfold update_video_generation_job. operation_cases; auto.
  - unfold create_job_progress_update. operation_cases; auto.
    right. exists now, c. auto.
Qed.

Lemma Forall_modify {A : Type} (P : A -> Prop) (id : A -> option Z) (k : Z)
  (f : A -> A) (rows : list A) :
  (forall r, P r -> P (f r)) -> Forall P rows -> Forall P (modify id k f rows).
Proof.
  intros Hf H. unfold modify. induction H as [| r rows Hr _ IH]; simpl.
  - constructor.
  - constructor; [| exact IH]. destruct (has_id id k r); auto.
Qed.

(** A property of jobs that every created job has and every update by
    an instance of the Update schema keeps holds of every job of every
    reachable store. *)
Lemma video_generation_jobs_invariant (P : VideoGenerationJob.t -> Prop) :
  (forall id now c,
      instance VideoGenerationJobCreate.errors c ->
      P (VideoGenerationJob_of id now c)) ->
  (forall u r,
      instance VideoGenerationJobUpdate.errors u ->
      P r -> P (VideoGenerationJob_update u r)) ->
  forall ops, Forall P (video_generation_jobs (run_all ops)).
Proof.
  intros Hcreate Hupdate ops. unfold run_all.
  assert (Forall P (video_generation_jobs empty_store)) as H0
    by constructor.
  revert H0. generalize empty_store as s. induction ops as [| op ops IH].
  - intros s H. exact H.
  - intros s H. simpl. apply IH.
    destruct (run_video_generation_jobs s op)
      as [-> | [(now & c & Hc & ->) | (k & u & Hu & ->)]].
    + exact H.
    + apply Forall_app. split; [exact H |]. constructor; [| constructor].
      apply Hcreate. exact Hc.
    + apply Forall_modify; [| exact H]. intros r. apply Hupdate. exact Hu.
Qed.

Lemma job_progress_updates_invariant (P : JobProgressUpdate.t -> Prop) :
  (forall id now c,
      instance JobProgressUpdateCreate.errors c ->
      P (JobProgressUpdate_of id now c)) ->
  forall ops, Forall P (job_progress_updates (run_all ops)).
Proof.
  intros Hcreate ops. unfold run_all.
  assert (Forall P (job_progress_updates empty_store)) as H0
    by constructor.
  revert H0. generalize empty_store as s. induction ops as [| op ops IH].
  - intros s H. exact H.
  - intros s H. simpl. apply IH.
    destruct (run_job_progress_updates s op) as [-> | (now & c & Hc & ->)].
    + exact H.
    + apply Forall_app. split; [exact H |]. constructor; [| constructor].
      apply Hcreate. exact Hc.
Qed.

Lemma within_0_100_of_update (u : VideoGenerationJobUpdate.t) (d : Decimal) :
  instance VideoGenerationJobUpdate.errors u ->
  VideoGenerationJobUpdate.progress_percentage u = Some d ->
  within (0 # 1) (100 # 1) d.
Proof.
  unfold instance, VideoGenerationJobUpdate.errors. intros H Hd.
  rewrite !app_nil_iff, !field_error_nil in H.
  destruct H as (_ & H & _). rewrite Hd in H. simpl in H.
  apply (decimal_ok_spec 2 (0 # 1) (100 # 1) d) in H. apply H.
Qed.

Lemma within_0_100_of_create (c : JobProgressUpdateCreate.t) :
  instance JobProgressUpdateCreate.errors c ->
  within (0 # 1) (100 # 1) (JobProgressUpdateCreate.progress_percentage c).
Proof.
  unfold instance, JobProgressUpdateCreate.errors. intros H.
  rewrite !app_nil_iff, !field_error_nil in H.
  destruct H as (H & _).
  apply (decimal_ok_spec 2 (0 # 1) (100 # 1)) in H. apply H.
Qed.

(** C10: in every state the store reaches by creates and updates, the
    progress_percentage of every VideoGenerationJob and of every
    JobProgressUpdate lies in the closed interval [0, 100]. *)
Theorem progress_percentage_in_range (ops : list Operation)
  (j : VideoGenerationJob.t) (p : JobProgressUpdate.t) :
  (In j (video_generation_jobs (run_all ops)) ->
   within (0 # 1) (100 # 1) (VideoGenerationJob.progress_percentage j))
  /\ (In p (job_progress_updates (run_all ops)) ->
      within (0 # 1) (100 # 1) (JobProgressUpdate.progress_percentage p)).
Proof.
  split; intro Hin.
  - assert (Forall (fun j => within (0 # 1) (100 # 1)
                               (VideoGenerationJob.progress_percentage j))
              (video_generation_jobs (run_all ops))) as H.
    { apply video_generation_jobs_invariant.
      - intros id now c _. simpl. eexists. split; [reflexivity |].
        split; vm_compute; discriminate.
      - intros u r Hu Hr. simpl.
        destruct (VideoGenerationJobUpdate.progress_percentage u) as [d |]
          eqn:Hd; simpl.
        + apply (within_0_100_of_update u d Hu Hd).
        + exact Hr. }
    rewrite Forall_forall in H. apply H. exact Hin.
  - assert (Forall (fun p => within (0 # 1) (100 # 1)
                               (JobProgressUpdate.progress_percentage p))
              (job_progress_updates (run_all ops))) as H.
    { apply job_progress_updates_invariant.
      intros id now c Hc. simpl. apply within_0_100_of_create. exact Hc. }
    rewrite Forall_forall in H. apply H. exact Hin.
Qed.

Lemma progress_percentage_in_range_witness :
  let ops :=
    setup
    ++ [UpdateVideoGenerationJob 1
          (job_update (Some PROCESSING) (Some (DFinite 100 0)));
        CreateJobProgressUpdate 80 (progress_entry (DFinite 10 0) "voice")] in
  let j :=
    VideoGenerationJob_update
      (job_update (Some PROCESSING) (Some (DFinite 100 0)))
      (VideoGenerationJob_of 1 60 job0) in
  let p := JobProgressUpdate_of 1 80 (progress_entry (DFinite 10 0) "voice") in
  In j (video_generation_jobs (run_all ops))
  /\ In p (job_progress_updates (run_all ops))
  /\ within (0 # 1) (100 # 1) (VideoGenerationJob.progress_percentage j)
  /\ within (0 # 1) (100 # 1) (JobProgressUpdate.progress_percentage p).
Proof.
  intros ops j p.
  assert (In j (video_generation_jobs (run_all ops))) as Hj
    by (left; reflexivity).
  assert (In p (job_progress_updates (run_all ops))) as Hp
    by (left; reflexivity).
  destruct (progress_percentage_in_range ops j p) as [Hjob Hentry].
  split; [exact Hj |]. split; [exact Hp |].
  split; [apply Hjob; exact Hj | apply Hentry; exact Hp].
Defined.

Lemma Forall2_modify {A : Type} (R : A -> A -> Prop) (id : A -> option Z)
  (k : Z) (f : A -> A) (rows : list A) :
  (forall r, R r r) -> (forall r, R r (f r)) ->
  Forall2 R rows (modify id k f rows).
Proof.
  intros Hrefl Hf. unfold modify.
  induction rows as [| r rows IH]; simpl; constructor.
  - destruct (has_id id k r); auto.
  - exact IH.
Qed.

(** C9: an update of a BackgroundVideo through BackgroundVideoUpdate
    leaves filename, original_filename, file_path, file_size, duration,
    width, height, fps, format, user_id and created_at of every stored
    video as they were, and the row it returns differs from the stored
    one in description and tags at most. *)
Theorem update_background_video_frame (s : Store) (k : Z)
  (u : BackgroundVideoUpdate.t) :
  Forall2 same_but_description_and_tags (background_videos s)
    (background_videos (fst (update_background_video s k u)))
  /\ forall r', snd (update_background_video s k u) = Ok r' ->
                exists r, In r (background_videos s)
                          /\ BackgroundVideo.id r = Some k
                          /\ BackgroundVideo.id r' = Some k
                          /\ same_but_description_and_tags r r'.
Proof.
  assert (forall r, same_but_description_and_tags r r) as Hrefl
    by (intro r; repeat split).
  assert (forall rows : list BackgroundVideo.t,
             Forall2 same_but_description_and_tags rows rows) as Hsame
    by (induction rows; constructor; auto).
  unfold update_background_video, transaction, bind.
  destruct (model_validate_cases BackgroundVideoUpdate.errors u)
    as [[_ ->] | [_ ->]]; cbv beta iota zeta.
  - unfold get.
    destruct (find (has_id BackgroundVideo.id k) (background_videos s))
      as [r |] eqn:Hfind; simpl.
    + split.
      * apply Forall2_modify; [exact Hrefl | intro a; repeat split].
      * intros r' [= <-]. exists r.
        apply find_some in Hfind. destruct Hfind as [Hin Hid].
        apply has_id_true in Hid.
        split; [exact Hin |]. split; [exact Hid |]. split; [exact Hid |].
        repeat split.
    + split; [apply Hsame | intros r' H; discriminate H].
  - simpl. split; [apply Hsame | intros r' H; discriminate H].
Qed.

(** The bounds of speed at work: 5.0 and 0.05 are refused, 0.1 and 3.00
    are accepted, and so is 1.500, whose third place is a zero. *)
Example speed_examples :
  map (decimal_ok (Dec 2 (Some (1 # 10)%Q) (Some (3 # 1)%Q)))
    [DFinite 50 (-1); DFinite 5 (-2); DFinite 1 (-1); DFinite 300 (-2);
     DFinite 1500 (-3); DFinite 1234 (-3); DInfinity false; DNaN]
  = [false; false; true; true; true; false; false; false].
Proof. reflexivity. Qed.

(** * Further properties of the declarations *)

(** ** Tables and schemas agree *)

(** X1: a table repeats the [Field] declarations of its Create schema,
    and the defaults of the columns the schema lacks satisfy theirs: the
    row built from a payload violates the declarations of its table on
    exactly the fields on which the payload violates its schema. A row
    built from an instance of the schema satisfies them all. *)
Lemma rows_satisfy_their_tables (id : Z) (now : datetime) :
  (forall c, User.errors (User_of id now c) = UserCreate.errors c)
  /\ (forall c,
         RedditPost.errors (RedditPost_of id now c)
         = RedditPostCreate.errors c)
  /\ (forall c,
         BackgroundVideo.errors (BackgroundVideo_of id now c)
         = BackgroundVideoCreate.errors c)
  /\ (forall c,
         TTSConfiguration.errors (TTSConfiguration_of id now c)
         = TTSConfigurationCreate.errors c)
  /\ (forall c,
         SubtitleStyle.errors (SubtitleStyle_of id now c)
         = SubtitleStyleCreate.errors c)
  /\ (forall c,
         VideoGenerationJob.errors (VideoGenerationJob_of id now c)
         = VideoGenerationJobCreate.errors c)
  /\ (forall c,
         JobProgressUpdate.errors (JobProgressUpdate_of id now c)
         = JobProgressUpdateCreate.errors c).
Proof.
  repeat split; intro c; try reflexivity.
  unfold VideoGenerationJob.errors, VideoGenerationJobCreate.errors.
  cbn [VideoGenerationJob_of VideoGenerationJob.job_name
         VideoGenerationJob.target_duration VideoGenerationJob.output_width
         VideoGenerationJob.output_height VideoGenerationJob.output_fps
         VideoGenerationJob.progress_percentage
         VideoGenerationJob.current_step VideoGenerationJob.output_filename
         VideoGenerationJob.output_file_path VideoGenerationJob.error_message
         VideoGenerationJob.retry_count VideoGenerationJob.max_retries].
  change (decimal_ok (Dec 2 (Some (0 # 1)%Q) (Some (100 # 1)%Q)) (DFinite 0 0))
    with true.
  change (str_ok (Str 200) "") with true.
  change (int_ok (Int (Some 0) None) 0) with true.
  change (int_ok (Int (Some 0) None) 3) with true.
  cbn [optional field_error app].
  rewrite !app_nil_r. reflexivity.
Qed.

#[local] Arguments str_ok : simpl never.
#[local] Arguments int_ok : simpl never.
#[local] Arguments decimal_ok : simpl never.
#[local] Arguments optional : simpl never.
#[local] Arguments given : simpl never.
#[local] Arguments given_opt : simpl never.

Lemma given_ok {A : Type} (ok : A -> bool) (new : option A) (old : A) :
  optional ok new = true -> ok old = true -> ok (given new old) = true.
Proof. destruct new; unfold optional, given; auto. Qed.

Lemma given_opt_ok {A : Type} (ok : A -> bool) (new old : option A) :
  optional ok new = true -> optional ok old = true ->
  optional ok (given_opt new old) = true.
Proof. destruct new; unfold given_opt; auto. Qed.

Ltac split_errors :=
  repeat match goal with
    | H : _ ++ _ = [] |- _ => apply app_eq_nil in H; destruct H
    | H : field_error _ _ = [] |- _ => apply field_error_nil in H
    end.

Ltac kept_constraints :=
  unfold instance; intros u r Hu Hr;
  repeat (apply app_nil_iff; split);
  split_errors; apply field_error_nil; simpl;
  auto using given_ok, given_opt_ok.

(** X2: an Update schema repeats the [Field] declarations of its table
    on the fields it carries: a stored row that satisfies the
    declarations of its table still satisfies them after an update by an
    instance of the Update schema. *)
Theorem updates_keep_table_constraints :
  (forall u r, instance UserUpdate.errors u -> User.errors r = [] ->
               User.errors (User_update u r) = [])
  /\ (forall u r, instance BackgroundVideoUpdate.errors u ->
                  BackgroundVideo.errors r = [] ->
                  BackgroundVideo.errors (BackgroundVideo_update u r) = [])
  /\ (forall u r, instance TTSConfigurationUpdate.errors u ->
                  TTSConfiguration.errors r = [] ->
                  TTSConfiguration.errors (TTSConfiguration_update u r) = [])
  /\ (forall u r, instance SubtitleStyleUpdate.errors u ->
                  SubtitleStyle.errors r = [] ->
                  SubtitleStyle.errors (SubtitleStyle_update u r) = [])
  /\ (forall u r, instance VideoGenerationJobUpdate.errors u ->
                  VideoGenerationJob.errors r = [] ->
                  VideoGenerationJob.errors (VideoGenerationJob_update u r)
                  = []).
Proof.
  repeat split.
  - unfold UserUpdate.errors, User.errors. kept_constraints.
  - unfold BackgroundVideoUpdate.errors, BackgroundVideo.errors.
    kept_constraints.
  - unfold TTSConfigurationUpdate.errors, TTSConfiguration.errors.
    kept_constraints.
  - unfold SubtitleStyleUpdate.errors, SubtitleStyle.errors.
    kept_constraints.
  - unfold VideoGenerationJobUpdate.errors, VideoGenerationJob.errors.
    kept_constraints.
Qed.

Lemma updates_keep_table_constraints_witness :
  instance TTSConfigurationUpdate.errors tts_update0
  /\ TTSConfiguration.errors (TTSConfiguration_of 1 40 tts0) = []
  /\ TTSConfiguration.errors
       (TTSConfiguration_update tts_update0 (TTSConfiguration_of 1 40 tts0))
     = [].
Proof.
  assert (instance TTSConfigurationUpdate.errors tts_update0) as Hu
    by reflexivity.
  assert (TTSConfiguration.errors (TTSConfiguration_of 1 40 tts0) = [])
    as Hr by reflexivity.
  split; [exact Hu |]. split; [exact Hr |].
  destruct updates_keep_table_constraints as (_ & _ & H & _).
  apply (H tts_update0 (TTSConfiguration_of 1 40 tts0) Hu Hr).
Defined.

(** ** Bounds in arithmetic terms *)

Lemma int_ok_between (a b n : Z) :
  int_ok (Int (Some a) (Some b)) n = true <-> a <= n <= b.
Proof. unfold int_ok. simpl. rewrite andb_true_iff, !Z.leb_le. tauto. Qed.

Lemma int_ok_from (a n : Z) :
  int_ok (Int (Some a) None) n = true <-> a <= n.
Proof. unfold int_ok. simpl. rewrite andb_true_r, Z.leb_le. tauto. Qed.

Lemma decimal_ok_from (p : Z) (a : Q) (d : Decimal) :
  decimal_ok (Dec p (Some a) None) d = true
  <-> at_least a d /\ at_most_places p d.
Proof. apply decimal_ok_ge_spec. Qed.


(** The boolean checks among the hypotheses, as propositions. *)
Ltac checks_to_props :=
  repeat match goal with
    | H : _ /\ _ |- _ => destruct H
    | H : str_ok (Str _) _ = true |- _ => apply str_ok_spec in H
    | H : int_ok (Int (Some _) (Some _)) _ = true |- _ =>
        apply int_ok_between in H
    | H : int_ok (Int (Some _) None) _ = true |- _ => apply int_ok_from in H
    | H : decimal_ok (Dec _ None None) _ = true |- _ =>
        apply decimal_ok_places_spec in H
    | H : decimal_ok (Dec _ (Some _) None) _ = true |- _ =>
        apply decimal_ok_from in H
    | H : decimal_ok (Dec _ (Some _) (Some _)) _ = true |- _ =>
        apply decimal_ok_spec in H
    end.

(** A boolean check in the goal, from the propositions at hand. *)
Ltac check_from_props :=
  first
    [ reflexivity
    | apply str_ok_spec; assumption
    | apply int_ok_between; split; assumption
    | apply int_ok_from; assumption
    | apply decimal_ok_places_spec; assumption
    | apply decimal_ok_from; split; assumption
    | apply decimal_ok_spec; split; assumption ].

Ltac accepted_iff :=
  unfold instance; simpl;
  rewrite !app_nil_iff, !field_error_nil;
  split; intro H;
  [ checks_to_props; repeat split; assumption
  | checks_to_props; repeat split; check_from_props ].

(** X3: no declared default violates the constraint of its own field. A
    payload that gives the required fields only is an instance of its
    Create schema exactly when the required fields satisfy their
    declarations. *)
Theorem defaults_satisfy_their_constraints :
  (forall username email,
      instance UserCreate.errors (UserCreate_with_defaults username email)
      <-> (characters username <= 100)%nat
          /\ (characters email <= 255)%nat)
  /\ (forall reddit_id subreddit title author created_utc url permalink
             user_id,
         instance RedditPostCreate.errors
           (RedditPostCreate_with_defaults reddit_id subreddit title author
              created_utc url permalink user_id)
         <-> (characters reddit_id <= 50)%nat
             /\ (characters subreddit <= 100)%nat
             /\ (characters title <= 500)%nat
             /\ (characters author <= 100)%nat
             /\ (characters url <= 500)%nat
             /\ (characters permalink <= 500)%nat)
  /\ (forall filename original_filename file_path file_size duration width
             height fps user_id,
         instance BackgroundVideoCreate.errors
           (BackgroundVideoCreate_with_defaults filename original_filename
              file_path file_size duration width height fps user_id)
         <-> (characters filename <= 255)%nat
             /\ (characters original_filename <= 255)%nat
             /\ (characters file_path <= 500)%nat
             /\ at_most_places 2 duration
             /\ at_most_places 2 fps)
  /\ (forall name voice_id voice_name user_id,
         instance TTSConfigurationCreate.errors
           (TTSConfigurationCreate_with_defaults name voice_id voice_name
              user_id)
         <-> (characters name <= 100)%nat
             /\ (characters voice_id <= 100)%nat
             /\ (characters voice_name <= 100)%nat)
  /\ (forall name user_id,
         instance SubtitleStyleCreate.errors
           (SubtitleStyleCreate_with_defaults name user_id)
         <-> (characters name <= 100)%nat)
  /\ (forall job_name target_duration user_id reddit_post_id
             background_video_id tts_config_id subtitle_style_id,
         instance VideoGenerationJobCreate.errors
           (VideoGenerationJobCreate_with_defaults job_name target_duration
              user_id reddit_post_id background_video_id tts_config_id
              subtitle_style_id)
         <-> (characters job_name <= 200)%nat
             /\ at_least (1 # 1) target_duration
             /\ at_most_places 2 target_duration)
  /\ (forall progress_percentage step_name video_job_id,
         instance JobProgressUpdateCreate.errors
           (JobProgressUpdateCreate_with_defaults progress_percentage
              step_name video_job_id)
         <-> within (0 # 1) (100 # 1) progress_percentage
             /\ at_most_places 2 progress_percentage
             /\ (characters step_name <= 200)%nat).
Proof.
  repeat apply conj; intros.
  - unfold UserCreate.errors. accepted_iff.
  - unfold RedditPostCreate.errors. accepted_iff.
  - unfold BackgroundVideoCreate.errors. accepted_iff.
  - unfold TTSConfigurationCreate.errors. accepted_iff.
  - unfold SubtitleStyleCreate.errors. accepted_iff.
  - unfold VideoGenerationJobCreate.errors. accepted_iff.
  - unfold JobProgressUpdateCreate.errors. accepted_iff.
Qed.

(** X4: the members of each enumeration have pairwise distinct string
    values: no member is an alias of another, and a stored value names
    one member. *)
Theorem enum_values_distinct :
  (forall a b, JobStatus_value a = JobStatus_value b -> a = b)
  /\ (forall a b, TTSProvider_value a = TTSProvider_value b -> a = b)
  /\ (forall a b, VideoFormat_value a = VideoFormat_value b -> a = b).
Proof.
  repeat split; intros [] [] H; try reflexivity; discriminate H.
Qed.

(** ** Validation of the payloads, field by field

    What the Field declarations of a schema ask of a payload, in
    arithmetic terms. A string is bounded in characters, not in bytes. *)















(** ** Lookup by primary key *)

Lemma get_cases {A : Type} (table : string) (id : A -> option Z) (k : Z)
  (rows : list A) :
  (exists r, find (has_id id k) rows = Some r /\ In r rows /\ id r = Some k
             /\ get table id k rows = Ok r)
  \/ (~ refers id rows k /\ get table id k rows = Err (NotFoundError table)).
Proof.
  unfold get, refers. destruct (find (has_id id k) rows) as [r |] eqn:E.
  - left. exists r. destruct (find_some _ _ E) as [Hin Hid].
    apply has_id_true in Hid. auto.
  - right. split; [| reflexivity]. intros (r & Hin & Hid).
    apply (find_none _ _ E) in Hin. apply has_id_true in Hid.
    rewrite Hid in Hin. discriminate Hin.
Qed.

#[local] Arguments get : simpl never.
#[local] Arguments modify : simpl never.

(** ** Invariants of the store *)

Ltac run_step_cases :=
  unfold transaction, bind;
  match goal with
  | |- context [model_validate ?e ?x] =>
      destruct (model_validate_cases e x) as [[? ->] | [? ->]];
      cbv beta iota zeta; [| left; reflexivity]
  end;
  repeat match goal with
    | |- context [unique ?cs ?r ?rows] =>
        destruct (unique cs r rows) as [[] | ?] eqn:?;
        cbv beta iota; [| left; reflexivity]
    | |- context [foreign_key ?c ?id ?k ?rows] =>
        destruct (foreign_key_cases c id k rows) as [[? ->] | [? ->]];
        cbv beta iota; [| left; reflexivity]
    | |- context [get ?t ?id ?k ?rows] =>
        destruct (get_cases t id k rows)
          as [(? & ? & ? & ? & ->) | [? ->]];
        cbv beta iota zeta; [| left; reflexivity]
    end;
  right; simpl; econstructor; eauto.

(** An operation fails and leaves the store as it was, or succeeds by
    one of the rules of [step]. *)
Lemma run_step (s : Store) (op : Operation) :
  run s op = s \/ step s (run s op).
Proof.
  destruct op; simpl.
  - unfold create_user. run_step_cases.
  - unfold update_user. run_step_cases.
  - unfold create_reddit_post. run_step_cases.
  - unfold create_background_video. run_step_cases.
  - unfold update_background_video. run_step_cases.
  - unfold create_tts_configuration. run_step_cases.
  - unfold update_tts_configuration. run_step_cases.
  - unfold create_subtitle_style. run_step_cases.
  - unfold update_subtitle_style. run_step_cases.
  - unfold create_video_generation_job. run_step_cases.
  - unfold update_video_generation_job. run_step_cases.
  - unfold create_job_progress_update. run_step_cases.
Qed.

(** What holds of the empty store and is kept by every successful
    operation holds of every state the store reaches. *)
Lemma run_all_invariant (I : Store -> Prop) :
  I empty_store ->
  (forall s s', I s -> step s s' -> I s') ->
  forall ops, I (run_all ops).
Proof.
  intros H0 Hstep ops. unfold run_all.
  revert H0. generalize empty_store as s.
  induction ops as [| op ops IH]; intros s Hs; simpl.
  - exact Hs.
  - apply IH. destruct (run_step s op) as [-> | H]; eauto.
Qed.

Lemma map_id_modify {A : Type} (id : A -> option Z) (k : Z) (f : A -> A)
  (rows : list A) :
  (forall r, id (f r) = id r) -> map id (modify id k f rows) = map id rows.
Proof.
  intro Hid. unfold modify. rewrite map_map. apply map_ext.
  intro r. destruct (has_id id k r); auto.
Qed.

Lemma keyed_app {A : Type} (id : A -> option Z) (rows : list A) (r : A) :
  id r = Some (next_id rows) -> keyed id rows -> keyed id (rows ++ [r]).
Proof.
  unfold keyed, next_id. intros Hid H.
  rewrite map_app, length_app, H. simpl List.length.
  rewrite Nat.add_1_r, seq_S, map_app. simpl. rewrite Hid.
  do 3 f_equal. lia.
Qed.

Lemma keyed_modify {A : Type} (id : A -> option Z) (k : Z) (f : A -> A)
  (rows : list A) :
  (forall r, id (f r) = id r) -> keyed id rows ->
  keyed id (modify id k f rows).
Proof.
  unfold keyed. intros Hid H. rewrite map_id_modify by exact Hid.
  unfold modify. rewrite length_map. exact H.
Qed.

Lemma NoDup_map_injective {A B : Type} (f : A -> B) (l : list A) :
  (forall x y, f x = f y -> x = y) -> NoDup l -> NoDup (map f l).
Proof.
  intros Hf H. induction H as [| x l Hx _ IH]; simpl; constructor.
  - intro Hin. apply in_map_iff in Hin. destruct Hin as (y & Hy & Hin).
    apply Hf in Hy. subst y. contradiction.
  - exact IH.
Qed.

Lemma keyed_NoDup {A : Type} (id : A -> option Z) (rows : list A) :
  keyed id rows -> NoDup (map id rows).
Proof.
  unfold keyed. intros ->. apply NoDup_map_injective.
  - intros x y [= H]. lia.
  - apply seq_NoDup.
Qed.

Lemma step_primary_keys (s s' : Store) :
  primary_keys_hold s -> step s s' -> primary_keys_hold s'.
Proof.
  intros (Hu & Hr & Hv & Ht & Hy & Hj & Hp) Hstep.
  destruct Hstep; unfold primary_keys_hold; simpl; repeat split;
    first [ assumption
          | apply keyed_app; [reflexivity | assumption]
          | apply keyed_modify; [reflexivity | assumption] ].
Qed.

(** *** Unique columns *)

Lemma NoDup_snoc {A : Type} (l : list A) (x : A) :
  NoDup l -> ~ In x l -> NoDup (l ++ [x]).
Proof.
  intros H Hx. induction H as [| a l Ha _ IH]; simpl.
  - constructor; [intros [] | constructor].
  - constructor.
    + rewrite in_app_iff. intros [Hin | [-> | []]].
      * contradiction.
      * apply Hx. left. reflexivity.
    + apply IH. intro Hin. apply Hx. right. exact Hin.
Qed.

Lemma NoDup_replace {A : Type} (l l' : list A) (a x : A) :
  NoDup (l ++ a :: l') -> ~ In x (l ++ l') -> NoDup (l ++ x :: l').
Proof.
  intros H Hx. apply NoDup_remove_1 in H.
  induction l as [| b l IH]; simpl in *.
  - constructor; assumption.
  - inversion H as [| ? ? Hb Hl]; subst. constructor.
    + rewrite in_app_iff in *. simpl. intros [Hin | [-> | Hin]]; auto.
    + apply IH; auto.
Qed.

(** A table without repeated keys splits around the row of key [k]. *)
Lemma split_at_key {A : Type} (id : A -> option Z) (k : Z) (rows : list A)
  (r : A) :
  NoDup (map id rows) -> find (has_id id k) rows = Some r ->
  exists l1 l2,
    rows = l1 ++ r :: l2
    /\ has_id id k r = true
    /\ Forall (fun o => has_id id k o = false) (l1 ++ l2).
Proof.
  induction rows as [| a rows IH]; simpl; intros Hnd Hfind.
  - discriminate Hfind.
  - inversion Hnd as [| ? ? Ha Hrest]; subst.
    destruct (has_id id k a) eqn:E.
    + injection Hfind as <-. exists [], rows. simpl.
      split; [reflexivity |]. split; [exact E |].
      apply Forall_forall. intros o Ho.
      destruct (has_id id k o) eqn:Eo; [| reflexivity].
      exfalso. apply Ha. apply has_id_true in E. apply has_id_true in Eo.
      rewrite E, <- Eo. apply in_map. exact Ho.
    + destruct (IH Hrest Hfind) as (l1 & l2 & -> & Hr & Hall).
      exists (a :: l1), l2. simpl.
      split; [reflexivity |]. split; [exact Hr |].
      constructor; assumption.
Qed.

Lemma modify_others {A : Type} (id : A -> option Z) (k : Z) (f : A -> A)
  (l : list A) :
  Forall (fun o => has_id id k o = false) l -> modify id k f l = l.
Proof.
  unfold modify. induction 1 as [| o l Ho _ IH]; simpl.
  - reflexivity.
  - rewrite Ho, IH. reflexivity.
Qed.

Lemma filter_others {A : Type} (id : A -> option Z) (k : Z) (l : list A) :
  Forall (fun o => has_id id k o = false) l ->
  filter (fun o => negb (has_id id k o)) l = l.
Proof.
  induction 1 as [| o l Ho _ IH]; simpl.
  - reflexivity.
  - rewrite Ho, IH. reflexivity.
Qed.

Lemma modify_split {A : Type} (id : A -> option Z) (k : Z) (f : A -> A)
  (l1 l2 : list A) (r : A) :
  has_id id k r = true ->
  Forall (fun o => has_id id k o = false) (l1 ++ l2) ->
  modify id k f (l1 ++ r :: l2) = l1 ++ f r :: l2
  /\ filter (fun o => negb (has_id id k o)) (l1 ++ r :: l2) = l1 ++ l2.
Proof.
  intros Hr Hall. apply Forall_app in Hall. destruct Hall as [H1 H2].
  split.
  - unfold modify. rewrite map_app. simpl. rewrite Hr.
    fold (modify id k f l1). fold (modify id k f l2).
    rewrite !modify_others by assumption. reflexivity.
  - rewrite filter_app. simpl. rewrite Hr. simpl.
    rewrite !filter_others by assumption. reflexivity.
Qed.

Lemma unique_user_Ok (r : User.t) (rows : list User.t) :
  unique User.unique_columns r rows = Ok tt ->
  ~ In (User.username r) (map User.username rows)
  /\ ~ In (User.email r) (map User.email rows).
Proof.
  intro H. destruct (unique_user_cases r rows)
    as [[U _] | [_ (column & _ & E)]].
  - split; intro Hin; apply in_map_iff in Hin;
      destruct Hin as (o & Ho & Hin); apply U; exists o; auto.
  - rewrite H in E. discriminate E.
Qed.

Lemma unique_reddit_id_Ok (r : RedditPost.t) (rows : list RedditPost.t) :
  unique RedditPost.unique_columns r rows = Ok tt ->
  ~ In (RedditPost.reddit_id r) (map RedditPost.reddit_id rows).
Proof.
  intro H. destruct (unique_reddit_id_cases r rows) as [[U _] | [_ E]].
  - intro Hin. apply in_map_iff in Hin. destruct Hin as (o & Ho & Hin).
    apply U. exists o. auto.
  - rewrite H in E. discriminate E.
Qed.

Lemma step_unique_columns (s s' : Store) :
  primary_keys_hold s -> unique_columns_hold s -> step s s' ->
  unique_columns_hold s'.
Proof.
  intros (Hk & _) (Hn & He & Hr) Hstep.
  destruct Hstep; unfold unique_columns_hold; simpl;
    try (repeat split; assumption).
  - apply unique_user_Ok in H0. destruct H0 as [Hname Hemail].
    rewrite !map_app. simpl.
    repeat split; [apply NoDup_snoc | apply NoDup_snoc |]; assumption.
  - apply keyed_NoDup in Hk.
    destruct (split_at_key _ _ _ _ Hk H0) as (l1 & l2 & E & Hid & Hall).
    rewrite E in *.
    destruct (modify_split User.id k (User_update u) l1 l2 r Hid Hall)
      as [-> Hf].
    rewrite Hf in H1. apply unique_user_Ok in H1.
    destruct H1 as [Hname Hemail].
    rewrite !map_app in *. simpl in *.
    repeat split; [eapply NoDup_replace | eapply NoDup_replace |];
      eassumption.
  - apply unique_reddit_id_Ok in H0. rewrite map_app. simpl.
    repeat split; [assumption | assumption | apply NoDup_snoc; assumption].
Qed.

(** X14: the unique columns. In every state the store reaches, no two
    users have the same username, no two the same email, and no two
    posts the same reddit_id. *)
Theorem unique_columns_invariant (ops : list Operation) :
  NoDup (map User.username (users (run_all ops)))
  /\ NoDup (map User.email (users (run_all ops)))
  /\ NoDup (map RedditPost.reddit_id (reddit_posts (run_all ops))).
Proof.
  assert (primary_keys_hold (run_all ops)
          /\ unique_columns_hold (run_all ops)) as [_ H].
  { apply run_all_invariant.
    - split; repeat split; constructor.
    - intros s s' [Hk Hu] Hstep. split.
      + eapply step_primary_keys; eassumption.
      + eapply step_unique_columns; eassumption. }
  exact H.
Qed.

(** *** Foreign keys *)

Lemma refers_app {A : Type} (id : A -> option Z) (rows more : list A)
  (k : Z) :
  refers id rows k -> refers id (rows ++ more) k.
Proof.
  intros (r & Hin & Hid). exists r. split; [| exact Hid].
  apply in_or_app. left. exact Hin.
Qed.

Lemma refers_modify {A : Type} (id : A -> option Z) (k' : Z) (f : A -> A)
  (rows : list A) (k : Z) :
  (forall r, id (f r) = id r) ->
  refers id rows k -> refers id (modify id k' f rows) k.
Proof.
  intros Hf (r & Hin & Hid). unfold modify.
  exists (if has_id id k' r then f r else r). split.
  - apply (in_map (fun r => if has_id id k' r then f r else r)). exact Hin.
  - destruct (has_id id k' r); [rewrite Hf |]; exact Hid.
Qed.

Lemma Forall_snoc {A : Type} (P : A -> Prop) (l : list A) (x : A) :
  Forall P l -> P x -> Forall P (l ++ [x]).
Proof.
  intros Hl Hx. apply Forall_app. split; [exact Hl |].
  constructor; [exact Hx | constructor].
Qed.

Ltac weaken_references :=
  eapply Forall_impl; [| eassumption];
  simpl; intros;
  repeat match goal with H : _ /\ _ |- _ => destruct H end;
  repeat split;
  first [ assumption
        | apply refers_app; assumption
        | apply refers_modify; [reflexivity | assumption] ].

Ltac keep_references :=
  first
    [ assumption
    | apply Forall_snoc; [assumption | simpl; repeat split; assumption]
    | apply Forall_modify; [intros ? Hkept; exact Hkept | assumption]
    | weaken_references ].

Lemma step_foreign_keys (s s' : Store) :
  foreign_keys_hold s -> step s s' -> foreign_keys_hold s'.
Proof.
  intros (Hr & Hv & Ht & Hy & Hj & Hp) Hstep.
  destruct Hstep; unfold foreign_keys_hold; simpl;
    repeat apply conj; keep_references.
Qed.

(** X15: the foreign keys. In every state the store reaches, the
    user_id of every post, video, voice, style and job names a stored
    user, the four other references of every job name stored rows of
    their tables, and the video_job_id of every progress entry names a
    stored job. *)
Theorem foreign_keys_invariant (ops : list Operation) :
  foreign_keys_hold (run_all ops).
Proof.
  apply run_all_invariant.
  - repeat split; constructor.
  - apply step_foreign_keys.
Qed.

(** *** Tables without an Update schema *)

Lemma extends_refl {A : Type} (l : list A) : extends l l.
Proof. exists []. symmetry. apply app_nil_r. Qed.

Lemma extends_trans {A : Type} (l1 l2 l3 : list A) :
  extends l1 l2 -> extends l2 l3 -> extends l1 l3.
Proof.
  intros (r1 & ->) (r2 & ->). exists (r1 ++ r2). symmetry. apply app_assoc.
Qed.

Lemma step_append_only (s s' : Store) :
  step s s' ->
  extends (reddit_posts s) (reddit_posts s')
  /\ extends (job_progress_updates s) (job_progress_updates s').
Proof.
  intro Hstep. destruct Hstep; simpl; split;
    first [apply extends_refl | eexists; reflexivity].
Qed.

Lemma fold_run_append_only (ops : list Operation) (s : Store) :
  extends (reddit_posts s) (reddit_posts (fold_left run ops s))
  /\ extends (job_progress_updates s)
       (job_progress_updates (fold_left run ops s)).
Proof.
  revert s. induction ops as [| op ops IH]; intro s; simpl.
  - split; apply extends_refl.
  - destruct (IH (run s op)) as [Hr Hp].
    destruct (run_step s op) as [E | Hstep].
    + rewrite E in *. auto.
    + destruct (step_append_only _ _ Hstep) as [Hr' Hp'].
      split; eapply extends_trans; eassumption.
Qed.

(** X17: RedditPost and JobProgressUpdate have no Update schema: their
    rows are written once. Whatever operations follow, the posts stored
    so far and the progress entries stored so far stay as they are, in
    their order, at the head of their tables. *)
Theorem posts_and_progress_are_append_only (ops more : list Operation) :
  extends (reddit_posts (run_all ops)) (reddit_posts (run_all (ops ++ more)))
  /\ extends (job_progress_updates (run_all ops))
       (job_progress_updates (run_all (ops ++ more))).
Proof.
  unfold run_all. rewrite fold_left_app. apply fold_run_append_only.
Qed.

(** *** Columns fixed at creation *)

Lemma map_modify {A B : Type} (g : A -> B) (id : A -> option Z) (k : Z)
  (f : A -> A) (rows : list A) :
  (forall r, g (f r) = g r) -> map g (modify id k f rows) = map g rows.
Proof.
  intro Hg. unfold modify. rewrite map_map. apply map_ext.
  intro r. destruct (has_id id k r); auto.
Qed.

Lemma extends_map_app {A B : Type} (g : A -> B) (l more : list A) :
  extends (map g l) (map g (l ++ more)).
Proof. exists (map g more). apply map_app. Qed.

Lemma extends_map_modify {A B : Type} (g : A -> B) (id : A -> option Z)
  (k : Z) (f : A -> A) (rows : list A) :
  (forall r, g (f r) = g r) ->
  extends (map g rows) (map g (modify id k f rows)).
Proof. intro Hg. rewrite map_modify by exact Hg. apply extends_refl. Qed.

Lemma step_fixed_columns (s s' : Store) :
  step s s' -> fixed_columns_kept s s'.
Proof.
  intro Hstep. destruct Hstep; unfold fixed_columns_kept; simpl;
    repeat apply conj;
    first [ apply extends_refl
          | apply extends_map_app
          | apply extends_map_modify; intro; reflexivity ].
Qed.

Lemma fold_run_fixed_columns (ops : list Operation) (s : Store) :
  fixed_columns_kept s (fold_left run ops s).
Proof.
  revert s. induction ops as [| op ops IH]; intro s; simpl.
  - repeat split; apply extends_refl.
  - destruct (run_step s op) as [E | Hstep].
    + rewrite E. apply IH.
    + destruct (step_fixed_columns _ _ Hstep) as (H1 & H2 & H3 & H4 & H5).
      destruct (IH (run s op)) as (I1 & I2 & I3 & I4 & I5).
      repeat split; eapply extends_trans; eassumption.
Qed.

(** X18: what is fixed at creation. Whatever operations follow, the rows
    stored so far keep their primary key and created_at, and beyond
    that: a video every column but description, tags and updated_at, a
    voice its provider and user_id, a style its user_id, a job its
    target_duration, output_width, output_height, output_fps,
    output_format, processing_settings, user_id and four references.
    The Update schemas carry none of these fields. updated_at is not
    among the columns covered, in any table. *)
Theorem fixed_at_creation (ops more : list Operation) :
  fixed_columns_kept (run_all ops) (run_all (ops ++ more)).
Proof.
  unfold run_all. rewrite fold_left_app. apply fold_run_fixed_columns.
Qed.
